(** * Support-matrix extractor (docs/extractor.py): model and properties

    A shallow embedding of the container metadata extractor: the Python
    text operations it relies on, the record of one container
    ([contdata]), the five extraction strategies, the scoped container
    session ([managed_container]), the persisted data store with its
    load-and-merge step ([from_json]) and the driver loop ([main]). *)

From Stdlib Require Import ZArith String Ascii Bool Lia.
From stdpp Require Import gmap strings list fin_maps pretty.

Open Scope Z_scope.

(** ** Python text

    A Python [str] is modelled as a [string] whose characters are the code
    points below 256.  Each definition is named after the [str] method it
    stands for. *)

Module PyStr.

(** Code points for which [str.isspace] holds on a one-character string:
    TAB..CR, FS..US, SPACE, NEL and NBSP. *)
Definition is_whitespace (c : ascii) : bool :=
  let n := nat_of_ascii c in
  ((9 <=? n) && (n <=? 13) || (28 <=? n) && (n <=? 32)
   || (n =? 133) || (n =? 160))%nat.

Fixpoint all_whitespace (s : string) : bool :=
  match s with
  | EmptyString => true
  | String c s' => is_whitespace c && all_whitespace s'
  end.

Fixpoint no_whitespace (s : string) : bool :=
  match s with
  | EmptyString => true
  | String c s' => negb (is_whitespace c) && no_whitespace s'
  end.

Definition is_empty (s : string) : bool :=
  match s with EmptyString => true | _ => false end.

(** [s.isspace()]: at least one character, and all of them whitespace. *)
Definition isspace (s : string) : bool :=
  negb (is_empty s) && all_whitespace s.

(** [s.lstrip()] *)
Fixpoint lstrip (s : string) : string :=
  match s with
  | EmptyString => EmptyString
  | String c s' => if is_whitespace c then lstrip s' else s
  end.

(** [s.rstrip()] *)
Fixpoint rstrip (s : string) : string :=
  match s with
  | EmptyString => EmptyString
  | String c s' =>
      let r := rstrip s' in
      if is_whitespace c && is_empty r then EmptyString else String c r
  end.

(** [s.strip()] *)
Definition strip (s : string) : string := rstrip (lstrip s).

(** [s.replace(c, "")] for a one-character [c]. *)
Fixpoint remove_char (q : ascii) (s : string) : string :=
  match s with
  | EmptyString => EmptyString
  | String c s' =>
      if Ascii.eqb c q then remove_char q s' else String c (remove_char q s')
  end.

Definition dquote : ascii := ascii_of_nat 34.
Definition newline : ascii := ascii_of_nat 10.

(** [s.split(sep)] for a one-character separator: never empty. *)
Fixpoint split_on (sep : ascii) (s : string) : list string :=
  match s with
  | EmptyString => [EmptyString]
  | String c s' =>
      if Ascii.eqb c sep then EmptyString :: split_on sep s'
      else match split_on sep s' with
           | w :: ws => String c w :: ws
           | [] => [String c EmptyString]
           end
  end.

(** [s.split()]: the maximal runs of non-whitespace, left to right.
    [cur] is the run being read. *)
Fixpoint split_go (cur : string) (s : string) : list string :=
  match s with
  | EmptyString => if is_empty cur then [] else [cur]
  | String c s' =>
      if is_whitespace c
      then (if is_empty cur then split_go EmptyString s'
            else cur :: split_go EmptyString s')
      else split_go (cur +:+ String c EmptyString) s'
  end.

Definition split (s : string) : list string := split_go EmptyString s.

(** [s.startswith(p)] *)
Definition startswith (p s : string) : bool := String.prefix p s.

(** [sep.join(l)] *)
Definition join (sep : string) (l : list string) : string :=
  String.concat sep l.

(** [l[-1]] on a list of strings; [None] is Python's IndexError. *)
Definition last_item (l : list string) : option string := last l.

End PyStr.


(** ** Values, exceptions and the world outside the program *)

(** What ends up as a value of a record: text, an integer (an image
    attribute such as [Size]) or [None] (an absent command-line option). *)
Inductive pyval : Type :=
| VStr (s : string)
| VInt (n : Z)
| VNone.

Abbreviation record := (gmap string pyval).

(** [str(v)], as ["{}".format(v)] renders it. *)
Definition py_str (v : pyval) : string :=
  match v with
  | VStr s => s
  | VInt n => pretty n
  | VNone => "None"
  end.

(** Truth value of [v], as [assert v] and [if not v] test it. *)
Definition truthy (v : pyval) : bool :=
  match v with
  | VStr s => negb (PyStr.is_empty s)
  | VInt n => negb (n =? 0)
  | VNone => false
  end.

Inductive exn : Type :=
| ImageNotFound
| APIError
| KeyError (k : string)
| IndexError
| TypeError
| AttributeError
| AssertionError
| FileNotFoundError
| RuntimeError (msg : string)
| KeyboardInterrupt
| GeneratorExit.

(** [isinstance(e, Exception)]: the last two derive from [BaseException]
    only. *)
Definition is_Exception (e : exn) : bool :=
  match e with
  | KeyboardInterrupt | GeneratorExit => false
  | _ => true
  end.

Definition is_ImageNotFound (e : exn) : bool :=
  match e with ImageNotFound => true | _ => false end.

Inductive log_entry : Type :=
| Info (msg : string)
| InfoRecord (r : record).

(** A running container as the extractors use it: [exec_run] gives the
    exit status and the decoded output of a command, [image_attrs] is
    [container.image.attrs]. *)
Record Container : Type := {
  cid : nat;
  exec_run : string -> Z * string;
  image_attrs : gmap string pyval
}.

Inductive cstate : Type := Running | Exited.

(** What [client.containers.run] finds for an image reference. *)
Inductive image_lookup : Type :=
| ImagePresent (exec : string -> Z * string) (attrs : gmap string pyval)
| ImageAbsent
| DaemonError.

Record Docker : Type := {
  images : string -> image_lookup;
  containers : gmap nat cstate;
  next_cid : nat
}.

Abbreviation store := (gmap string (gmap string record)).

(** Files are kept parsed: [fs] holds the JSON data stores, [yaml_files]
    the snippet files. *)
Record World : Type := {
  fs : gmap string store;
  yaml_files : gmap string record;
  log : list log_entry;
  docker : Docker
}.

Definition set_fs (f : gmap string store) (w : World) : World :=
  {| fs := f; yaml_files := yaml_files w; log := log w; docker := docker w |}.

Definition set_docker (d : Docker) (w : World) : World :=
  {| fs := fs w; yaml_files := yaml_files w; log := log w; docker := d |}.

(** [logger.info(msg)] *)
Definition info (msg : string) (w : World) : World :=
  {| fs := fs w; yaml_files := yaml_files w;
     log := log w ++ [Info msg]; docker := docker w |}.

Definition info_record (r : record) (w : World) : World :=
  {| fs := fs w; yaml_files := yaml_files w;
     log := log w ++ [InfoRecord r]; docker := docker w |}.

(** ** SupportMatrixExtractor *)

(** An entry of [self.data] is either a dictionary of its own or the very
    object bound to [self.contdata]: writes to [contdata] show through
    the second kind. *)
Inductive entry : Type :=
| Own (r : record)
| Shared.

Record SupportMatrixExtractor : Type := {
  container_name : string;
  release : string;
  contdata : record;
  data : gmap string (gmap string entry);
  datafile : string;
  container : option Container
}.

Definition ERROR : pyval := VStr "Not applicable".

Definition standard_snippets : list string :=
  ["dgx_system"; "nvidia_driver"; "gpu_model"].

(** [__init__] *)
Definition init (name rel file : string) : SupportMatrixExtractor :=
  {| container_name := name; release := rel; contdata := ∅;
     data := {[ name := {[ rel := Shared ]} ]};
     datafile := file; container := None |}.

Definition use_container (c : Container) (x : SupportMatrixExtractor)
  : SupportMatrixExtractor :=
  {| container_name := container_name x; release := release x;
     contdata := contdata x; data := data x; datafile := datafile x;
     container := Some c |}.

(** [self.contdata[key] = v] *)
Definition set_key (key : string) (v : pyval) (x : SupportMatrixExtractor)
  : SupportMatrixExtractor :=
  {| container_name := container_name x; release := release x;
     contdata := <[key := v]> (contdata x); data := data x;
     datafile := datafile x; container := container x |}.

Definition set_data (d : gmap string (gmap string entry))
  (x : SupportMatrixExtractor) : SupportMatrixExtractor :=
  {| container_name := container_name x; release := release x;
     contdata := contdata x; data := d;
     datafile := datafile x; container := container x |}.

(** The result of a method call: it returns, leaving the object and the
    world changed, or an exception leaves it. *)
Inductive outcome : Type :=
| Ok (x : SupportMatrixExtractor) (w : World)
| Raised (e : exn) (w : World).

Definition method : Type := SupportMatrixExtractor -> World -> outcome.

Definition and_then (m1 m2 : method) : method :=
  fun x w =>
    match m1 x w with
    | Ok x' w' => m2 x' w'
    | Raised e w' => Raised e w'
    end.

Definition ret : method := fun x w => Ok x w.

(** A block of statements, run in order until one raises. *)
Definition run_all (ms : list method) : method := foldr and_then ret ms.

(** [self.container.exec_run(cmd)], continuing with status and output. *)
Definition with_exec (cmd : string) (k : Z -> string -> method) : method :=
  fun x w =>
    match container x with
    | None => Raised AttributeError w
    | Some c => let '(err, output) := exec_run c cmd in k err output x w
    end.

Definition envfile_command (path lookup : string) : string :=
  "bash -c 'source " +:+ path +:+ "; echo ${" +:+ lookup +:+ "}'".

Definition env_command (lookup : string) : string :=
  "bash -c 'echo ${" +:+ lookup +:+ "}'".

Definition pip_command (lookup : string) : string :=
  "python -m pip show '" +:+ lookup +:+ "'".

Definition bash_command (cmd : string) : string :=
  "bash -c '" +:+ cmd +:+ "'".

Definition get_from_envfile (path lookup : string) (key : option string)
  : method :=
  fun x w =>
    let key := default lookup key in
    let x := set_key key ERROR x in
    with_exec (envfile_command path lookup) (fun err result x w =>
      if negb (err =? 1) && negb (PyStr.isspace result)
      then Ok (set_key key
                 (VStr (PyStr.strip (PyStr.remove_char PyStr.dquote result))) x) w
      else Ok x (info ("Failed to get env var '" +:+ lookup
                       +:+ "' from file '" +:+ path +:+ "'") w)) x w.

Definition get_from_env (lookup : string) (key : option string) : method :=
  fun x w =>
    let key := default lookup key in
    let x := set_key key ERROR x in
    with_exec (env_command lookup) (fun err result x w =>
      if negb (err =? 1) && negb (PyStr.isspace result)
      then Ok (set_key key
                 (VStr (PyStr.strip (PyStr.remove_char PyStr.dquote result))) x) w
      else Ok x (info ("Failed to get env var: '" +:+ lookup +:+ "'") w)) x w.

(** The lines of a [pip show] output that begin with the version marker. *)
Definition version_lines (output : string) : list string :=
  filter (fun line => PyStr.startswith "Version:" line = true)
         (PyStr.split_on PyStr.newline output).

Definition get_from_pip (lookup : string) (key : option string) : method :=
  fun x w =>
    let key := default lookup key in
    let x := set_key key ERROR x in
    with_exec (pip_command lookup) (fun err output x w =>
      if negb (err =? 0)
      then Ok x (info ("Failed to get package version from pip: " +:+ lookup) w)
      else
        match mapM (fun line => PyStr.last_item (PyStr.split line))
                   (version_lines output) with
        | None => Raised IndexError w
        | Some [v] => Ok (set_key key (VStr (PyStr.strip v)) x) w
        | Some _ =>
            Ok x (info ("Failed to extract version from pip output: "
                        +:+ output) w)
        end) x w.

(** [round(n / 1024 ** 3, 2)] counted in hundredths, for an integer [n]
    with [0 <= n < 2 ^ 53].  On that range [n / 1024 ** 3] is exact (the
    divisor is a power of two), [round(_, 2)] takes the nearest multiple
    of 0.01 of that exact value, ties going to the even hundredth, and
    gives the float nearest to it. *)
Definition gb_hundredths (n : Z) : Z :=
  let q := (100 * n) / 2 ^ 30 in
  let r := (100 * n) mod 2 ^ 30 in
  if 2 * r <? 2 ^ 30 then q
  else if 2 ^ 30 <? 2 * r then q + 1
  else if Z.even q then q else q + 1.

(** [repr] of the float nearest to [h / 100], for [0 <= h < 10 ^ 16]: the
    shortest decimal that reads back as that float, with at least one
    digit after the point. *)
Definition float_repr_hundredths (h : Z) : string :=
  pretty (h / 100) +:+ "." +:+
  (if h mod 10 =? 0 then pretty (h mod 100 / 10)
   else pretty (h mod 100 / 10) +:+ pretty (h mod 10)).

(** ["{} GB".format(round(n / 1024 ** 3, 2))] *)
Definition format_gb (n : Z) : string :=
  float_repr_hundredths (gb_hundredths n) +:+ " GB".

Definition get_from_image (lookup : string) (key : option string) : method :=
  fun x w =>
    let key := default lookup key in
    let x := set_key key ERROR x in
    match container x with
    | None => Raised AttributeError w
    | Some c =>
        let attrs := image_attrs c in
        let '(x, w) :=
          match attrs !! lookup with
          | Some v => (set_key key v x, w)
          | None =>
              (x, info ("Failed to get attr from image: '" +:+ lookup +:+ "'") w)
          end in
        if String.eqb lookup "Size"
        then match attrs !! lookup with
             | None => Raised (KeyError lookup) w
             | Some (VInt n) => Ok (set_key key (VStr (format_gb n)) x) w
             | Some _ => Raised TypeError w
             end
        else Ok x w
    end.

Definition get_from_cmd (cmd key : string) : method :=
  fun x w =>
    let x := set_key key ERROR x in
    with_exec (bash_command cmd) (fun err output x w =>
      if negb (err =? 1)
      then
        let x := set_key key (VStr (PyStr.strip output)) x in
        if String.eqb key "sm"
        then Ok (set_key key (VStr (PyStr.join ", " (PyStr.split output))) x) w
        else Ok x w
      else Ok x (info ("Command '" +:+ cmd +:+ "' failed: " +:+ output) w)) x w.

Definition insert_snippet (key : string) (snip : pyval) : method :=
  fun x w => Ok (set_key key snip x) w.

(** ** The data store *)

(** [self.data] as a reader of the dictionary sees it: the shared entry
    is the current [contdata]. *)
Definition resolve_entry (x : SupportMatrixExtractor) (e : entry) : record :=
  match e with
  | Own r => r
  | Shared => contdata x
  end.

Definition resolve (x : SupportMatrixExtractor) : store :=
  (fun rels : gmap string entry => resolve_entry x <$> rels) <$> data x.

(** Modelled from the spec: [merge] of the mergedeep package, which the
    repository imports and does not contain.  A deep, recursive merge:
    incoming nested mappings overlay existing ones key by key, sibling
    keys are kept at every level, and at a leaf the incoming value wins.
    Values taken from the source are copies, so the result shares no
    dictionary with it. *)
Definition merge_record (dst src : record) : record := src ∪ dst.

Definition merge_level {A : Type} (f : A -> A -> A)
  (dst src : gmap string A) : gmap string A :=
  union_with (fun d s => Some (f d s)) dst src.

Definition deepmerge (dst src : store) : store :=
  merge_level (merge_level merge_record) dst src.

Definition merge (dst : store) (sources : list store) : store :=
  foldl deepmerge dst sources.

(** [if k not in d: d[k] = v] *)
Definition setdefault {A : Type} (k : string) (v : A) (d : gmap string A)
  : gmap string A :=
  match d !! k with
  | Some _ => d
  | None => <[k := v]> d
  end.

(** The two tests of [from_json] on the loaded dictionary: the entry of
    the container name, then the entry of the release under it, are
    created empty when absent. *)
Definition ensure_path (name rel : string) (_data : store) : store :=
  let _data := setdefault name ∅ _data in
  match _data !! name with
  | Some rels => <[name := setdefault rel ∅ rels]> _data
  | None => _data
  end.

Definition from_json : method :=
  fun x w =>
    match fs w !! datafile x with
    | None => Ok x w
    | Some _data =>
        let _data := ensure_path (container_name x) (release x) _data in
        let merged := merge ∅ [_data; resolve x] in
        match merged !! container_name x with
        | None => Raised (KeyError (container_name x)) w
        | Some rels =>
            Ok (set_data
                  (<[container_name x := <[release x := Shared]> (Own <$> rels)]>
                     ((fun rs : gmap string record => Own <$> rs) <$> merged))
                  x) w
        end
    end.

Definition to_json_file : method :=
  fun x w => Ok x (set_fs (<[datafile x := resolve x]> (fs w)) w).

(** ** The container session *)

(** [client.containers.run(img, command="bash", detach=True, ...)] *)
Definition containers_run (img : string) (d : Docker)
  : (Container + exn) * Docker :=
  match images d img with
  | ImagePresent exec attrs =>
      (inl {| cid := next_cid d; exec_run := exec; image_attrs := attrs |},
       {| images := images d;
          containers := <[next_cid d := Running]> (containers d);
          next_cid := S (next_cid d) |})
  | ImageAbsent => (inr ImageNotFound, d)
  | DaemonError => (inr APIError, d)
  end.

(** [container.stop()] *)
Definition container_stop (c : Container) (d : Docker) : Docker :=
  {| images := images d;
     containers := alter (fun _ => Exited) (cid c) (containers d);
     next_cid := next_cid d |}.

(** [container.remove()] *)
Definition container_remove (c : Container) (d : Docker) : Docker :=
  {| images := images d;
     containers := delete (cid c) (containers d);
     next_cid := next_cid d |}.

(** What the [with] statement binds: the container, or the exception the
    generator caught and yielded. *)
Inductive yielded : Type :=
| YContainer (c : Container)
| YException (e : exn).

(** Where the generator [managed_container] is suspended: not started,
    at the [yield container] inside the [try], at a [yield] inside one of
    the two [except] clauses (with the value of [container] there), or
    finished. *)
Inductive gen_state : Type :=
| GStart (img : string)
| GAtYield (c : Container)
| GInHandler (c : option Container)
| GFinished.

Inductive gen_result : Type :=
| Yield (v : yielded)
| StopIteration
| Throws (e : exn).

(** The [finally] clause: [if container: container.stop();
    container.remove()]. *)
Definition finally_clause (c : option Container) (w : World) : World :=
  match c with
  | Some c => set_docker (container_remove c (container_stop c (docker w))) w
  | None => w
  end.

(** An exception [e] reaches the [try] body while [container] is [c]: the
    two [except] clauses yield it, anything else runs [finally] and
    leaves the generator. *)
Definition try_raises (c : option Container) (e : exn) (w : World)
  : gen_result * gen_state * World :=
  if is_ImageNotFound e || is_Exception e
  then (Yield (YException e), GInHandler c, w)
  else (Throws e, GFinished, finally_clause c w).

(** [next(gen)].  From the start the generator builds the client
    ([docker.from_env()], which contacts nothing yet) and enters the
    [try] with [container = None]. *)
Definition gen_next (g : gen_state) (w : World)
  : gen_result * gen_state * World :=
  match g with
  | GStart img =>
      match containers_run img (docker w) with
      | (inl c, d) => (Yield (YContainer c), GAtYield c, set_docker d w)
      | (inr e, d) => try_raises None e (set_docker d w)
      end
  | GAtYield c => (StopIteration, GFinished, finally_clause (Some c) w)
  | GInHandler c => (StopIteration, GFinished, finally_clause c w)
  | GFinished => (StopIteration, GFinished, w)
  end.

(** [gen.throw(e)] *)
Definition gen_throw (e : exn) (g : gen_state) (w : World)
  : gen_result * gen_state * World :=
  match g with
  | GStart _ => (Throws e, GFinished, w)
  | GAtYield c => try_raises (Some c) e w
  | GInHandler c => (Throws e, GFinished, finally_clause c w)
  | GFinished => (Throws e, GFinished, w)
  end.

(** [gen.close()] *)
Definition gen_close (g : gen_state) (w : World) : World :=
  match g with
  | GStart _ => w
  | _ => snd (gen_throw GeneratorExit g w)
  end.

(** How a block of statements ends. *)
Inductive completion : Type :=
| Normal
| Continue
| Raise (e : exn).

(** [contextlib.contextmanager]'s [__exit__].  [exc] is the exception
    leaving the body, if any; the result is the exception leaving the
    [with] statement, if any.  When the generator yields a second time
    the standard library raises [RuntimeError]; from Python 3.12 on it
    also closes the generator ([closes = true]), before that it leaves
    it suspended. *)
Definition cm_exit (closes : bool) (exc : option exn) (g : gen_state)
  (w : World) : option exn * World :=
  match exc with
  | None =>
      match gen_next g w with
      | (StopIteration, _, w') => (None, w')
      | (Throws e, _, w') => (Some e, w')
      | (Yield _, g', w') =>
          (Some (RuntimeError "generator didn't stop"),
           if closes then gen_close g' w' else w')
      end
  | Some e =>
      match gen_throw e g w with
      | (StopIteration, _, w') => (None, w')
      | (Throws e', _, w') => (Some e', w')
      | (Yield _, g', w') =>
          (Some (RuntimeError "generator didn't stop after throw()"),
           if closes then gen_close g' w' else w')
      end
  end.

(** [with managed_container(img) as container: body] *)
Definition with_managed_container (closes : bool) (img : string)
  (body : yielded -> World -> completion * World) (w : World)
  : completion * World :=
  match gen_next (GStart img) w with
  | (StopIteration, _, w1) => (Raise (RuntimeError "generator didn't yield"), w1)
  | (Throws e, _, w1) => (Raise e, w1)
  | (Yield v, g, w1) =>
      let '(c, w2) := body v w1 in
      let exc := match c with Raise e => Some e | _ => None end in
      match cm_exit closes exc g w2 with
      | (Some e, w3) => (Raise e, w3)
      | (None, w3) => (match c with Raise _ => Normal | _ => c end, w3)
      end
  end.

(** ** The driver *)

Record Args : Type := {
  version : option string;
  file : option string;
  snippets : option string
}.

(** What the program takes from its surroundings: [get_yymm()], the path
    of a file beside the program ([Path(__file__).parent / name]),
    [os.path.abspath], and whether the [contextlib] in use closes a
    generator that yields twice. *)
Record Env : Type := {
  get_yymm : string;
  beside_script : string -> string;
  abspath : string -> string;
  closes_generator : bool
}.

Definition ngc_base : string := "nvcr.io/nvidia/merlin/".

Definition container_list : list string :=
  ["merlin-training";
   "merlin-tensorflow-training";
   "merlin-pytorch-training";
   "merlin-inference";
   "merlin-tensorflow-inference";
   "merlin-pytorch-inference"].

(** A command-line option is used when it is given and not empty. *)
Definition given (o : option string) : option string :=
  match o with
  | Some s => if PyStr.is_empty s then None else Some s
  | None => None
  end.

Definition arg_value (o : option string) : pyval :=
  match o with
  | Some s => VStr s
  | None => VNone
  end.

(** [self.contdata[key]] read as an expression. *)
Definition read_key (key : string) (k : pyval -> method) : method :=
  fun x w =>
    match contdata x !! key with
    | Some v => k v x w
    | None => Raised (KeyError key) w
    end.

(** [xtr.insert_snippet(k, sniptext[k])] *)
Definition insert_standard_snippet (sniptext : record) (k : string) : method :=
  fun x w =>
    match sniptext !! k with
    | Some v => insert_snippet k v x w
    | None => Raised (KeyError k) w
    end.

Definition sm_command : string :=
  "if [ ! -f /usr/local/hugectr/lib/libhuge_ctr_shared.so ]; then exit 1; fi; cuobjdump /usr/local/hugectr/lib/libhuge_ctr_shared.so | grep arch | sed -e 's/.*sm_//'".

Definition python_major_command : string :=
  String.concat (String PyStr.dquote "")
    ["python -c "; "import sys;print(sys.version_info[0]);"; ""].

(** The extractor calls of [main], in their order. *)
Definition extractions : list method :=
  [get_from_image "Size" (Some "size");
   get_from_envfile "/etc/os-release" "PRETTY_NAME" (Some "os");
   get_from_env "CUDA_VERSION" (Some "cuda");
   get_from_pip "rmm" None;
   get_from_pip "cudf" None;
   get_from_env "CUDNN_VERSION" (Some "cudnn");
   get_from_pip "nvtabular" None;
   get_from_pip "transformers4rec" None;
   get_from_pip "merlin.core" None;
   get_from_pip "merlin.systems" None;
   get_from_pip "merlin.models" None;
   get_from_pip "hugectr2onnx" None;
   get_from_pip "hugectr" None;
   get_from_pip "sparse_operation_kit" None;
   get_from_pip "tensorflow" (Some "tf");
   get_from_pip "torch" (Some "pytorch");
   get_from_env "CUBLAS_VERSION" (Some "cublas");
   get_from_env "CUFFT_VERSION" (Some "cufft");
   get_from_env "CURAND_VERSION" (Some "curand");
   get_from_env "CUSOLVER_VERSION" (Some "cusolver");
   get_from_env "CUSPARSE_VERSION" (Some "cusparse");
   get_from_env "CUTENSOR_VERSION" (Some "cutensor");
   get_from_env "NVIDIA_TENSORFLOW_VERSION" (Some "nvidia_tensorflow");
   get_from_env "NVIDIA_PYTORCH_VERSION" (Some "nvidia_pytorch");
   get_from_env "OPENMPI_VERSION" (Some "openmpi");
   get_from_env "TRT_VERSION" (Some "tensorrt");
   get_from_env "TRTOSS_VERSION" (Some "base_container");
   get_from_cmd sm_command "sm";
   get_from_cmd "cat /opt/tritonserver/TRITON_VERSION" "triton";
   get_from_cmd python_major_command "python_major"].

(** The rule for ["base_container"], by container name. *)
Definition base_container_rule (cont : string) : method :=
  if String.eqb cont "merlin-training"
  then insert_snippet "base_container" (VStr "Not applicable")
  else if String.eqb cont "merlin-tensorflow-training"
  then read_key "nvidia_tensorflow" (fun tf2_img =>
       read_key "python_major" (fun py_maj =>
         insert_snippet "base_container"
           (VStr ("nvcr.io/nvidia/tensorflow:" +:+ py_str tf2_img
                  +:+ "-py" +:+ py_str py_maj))))
  else if String.eqb cont "merlin-pytorch-training"
  then read_key "nvidia_pytorch" (fun pt_img =>
       read_key "python_major" (fun py_maj =>
         insert_snippet "base_container"
           (VStr ("nvcr.io/nvidia/pytorch:" +:+ py_str pt_img
                  +:+ "-py" +:+ py_str py_maj))))
  else read_key "base_container" (fun trtoss =>
         insert_snippet "base_container"
           (VStr ("Triton version " +:+ py_str trtoss))).

(** [logger.info(xtr.contdata)] *)
Definition log_contdata : method :=
  fun x w => Ok x (info_record (contdata x) w).

(** What [main] does with the extractor of one container. *)
Definition extract_container (args : Args) (sniptext : record)
  (cont : string) : method :=
  run_all
    ([from_json]
       ++ map (insert_standard_snippet sniptext) standard_snippets
       ++ [insert_snippet "release" (arg_value (version args))]
       ++ extractions
       ++ [base_container_rule cont; to_json_file; log_contdata]).

(** The body of the [with] statement. *)
Definition with_body (args : Args) (sniptext : record)
  (cont ver jsonfile : string) (v : yielded) (w : World)
  : completion * World :=
  match v with
  | YException _ => (Continue, info "...image is not found." w)
  | YContainer c =>
      let w := info "...container is running." w in
      let xtr := use_container c (init (ngc_base +:+ cont) ver jsonfile) in
      match extract_container args sniptext cont xtr w with
      | Ok _ w' => (Normal, w')
      | Raised e w' => (Raise e, w')
      end
  end.

Definition image_reference (cont ver : string) : string :=
  ngc_base +:+ cont +:+ ":" +:+ ver.

(** The [for cont in containers] loop: the exception that ends it, if
    any, and the world it leaves. *)
Fixpoint main_loop (env : Env) (args : Args) (sniptext : record)
  (ver jsonfile : string) (conts : list string) (w : World)
  : option exn * World :=
  match conts with
  | [] => (None, w)
  | cont :: rest =>
      let img := image_reference cont ver in
      let w := info ("Extracting information from: " +:+ img) w in
      match with_managed_container (closes_generator env) img
              (with_body args sniptext cont ver jsonfile) w with
      | (Raise e, w') => (Some e, w')
      | (_, w') => main_loop env args sniptext ver jsonfile rest w'
      end
  end.

(** [for k in standard_snippets: assert sniptext[k]] *)
Fixpoint check_snippets (sniptext : record) (ks : list string) : option exn :=
  match ks with
  | [] => None
  | k :: ks' =>
      match sniptext !! k with
      | None => Some (KeyError k)
      | Some v => if truthy v then check_snippets sniptext ks'
                  else Some AssertionError
      end
  end.

Definition run_version (env : Env) (args : Args) : string :=
  default (get_yymm env) (given (version args)).

Definition run_jsonfile (env : Env) (args : Args) : string :=
  match given (file args) with
  | Some f => abspath env f
  | None => beside_script env "data.json"
  end.

Definition run_snippetsfile (env : Env) (args : Args) : string :=
  match given (snippets args) with
  | Some f => abspath env f
  | None => beside_script env "snippets.yaml"
  end.

Definition main (env : Env) (args : Args) (w : World) : option exn * World :=
  match yaml_files w !! run_snippetsfile env args with
  | None => (Some FileNotFoundError, w)
  | Some sniptext =>
      match check_snippets sniptext standard_snippets with
      | Some e => (Some e, w)
      | None =>
          main_loop env args sniptext (run_version env args)
            (run_jsonfile env args) container_list w
      end
  end.

(** ** Vocabulary of the properties *)




(** [tok] is the last whitespace-separated token of [line]. *)
Definition last_token_of (line tok : string) : Prop :=
  exists pre post,
    line = pre +:+ tok +:+ post
    /\ tok <> ""
    /\ PyStr.no_whitespace tok = true
    /\ PyStr.all_whitespace post = true
    /\ (pre = "" \/ exists p c, pre = p +:+ String c ""
                                /\ PyStr.is_whitespace c = true).


(** The record stored for a container name and a release. *)
Definition entry_at (s : store) (name rel : string) : option record :=
  s !! name ≫= fun rels : gmap string record => rels !! rel.

(** [self.contdata] after later writes have made it [r]. *)
Definition set_contdata (r : record) (x : SupportMatrixExtractor)
  : SupportMatrixExtractor :=
  {| container_name := container_name x; release := release x;
     contdata := r; data := data x;
     datafile := datafile x; container := container x |}.

(** A method that, when it returns, has left the key [k] of [contdata]
    as it was. *)
Definition preserves (k : string) (m : method) : Prop :=
  forall x w x' w', m x w = Ok x' w' -> contdata x' !! k = contdata x !! k.

(** A method that, when it returns, has changed nothing of the object
    but [contdata], and nothing of the world but the log. *)
Definition frames (m : method) : Prop :=
  forall x w x' w',
    m x w = Ok x' w' ->
    x' = set_contdata (contdata x') x
    /\ fs w' = fs w /\ docker w' = docker w /\ yaml_files w' = yaml_files w.

(** ** A sample run *)

Definition nl : string := String PyStr.newline "".

Definition sample_exec (cmd : string) : Z * string :=
  if String.eqb cmd (env_command "CUDA_VERSION") then (0, "11.6" +:+ nl)
  else if String.eqb cmd (env_command "NVIDIA_TENSORFLOW_VERSION")
  then (0, "22.02" +:+ nl)
  else if String.eqb cmd (bash_command python_major_command)
  then (0, "3" +:+ nl)
  else if String.eqb cmd (bash_command sm_command)
  then (0, "70" +:+ nl +:+ "75" +:+ nl +:+ "80")
  else if String.eqb cmd (pip_command "rmm")
  then (0, "Name: rmm" +:+ nl +:+ "Version: 22.02.00" +:+ nl
           +:+ "Summary: memory manager" +:+ nl)
  else if String.prefix "python -m pip" cmd
  then (1, "WARNING: Package(s) not found" +:+ nl)
  else if String.prefix "bash -c 'cat" cmd
  then (1, "cat: /opt/tritonserver/TRITON_VERSION: No such file" +:+ nl)
  else (0, nl).

Definition sample_container (attrs : gmap string pyval) : Container :=
  {| cid := 0; exec_run := sample_exec; image_attrs := attrs |}.

(** Two images exist for release 22.03; the second has no [Size]
    attribute. *)
Definition sample_images (img : string) : image_lookup :=
  if String.eqb img (image_reference "merlin-training" "22.03")
  then ImagePresent sample_exec {[ "Size" := VInt 10737418240 ]}
  else if String.eqb img (image_reference "merlin-pytorch-training" "22.03")
  then ImagePresent sample_exec ∅
  else ImageAbsent.

Definition sample_snippets : record :=
  {[ "dgx_system" := VStr "DGX-1"; "nvidia_driver" := VStr "510";
     "gpu_model" := VStr "V100" ]}.

Definition sample_store : store :=
  {[ "nvcr.io/nvidia/merlin/merlin-training" :=
       {[ "22.02" := {[ "cuda" := VStr "11.5" ]};
          "22.03" := {[ "stale" := VStr "old" ]} ]};
     "nvcr.io/nvidia/merlin/merlin-inference" :=
       {[ "22.03" := {[ "cuda" := VStr "11.6" ]} ]} ]}.

Definition sample_world : World :=
  {| fs := {[ "/docs/data.json" := sample_store ]};
     yaml_files := {[ "/docs/snippets.yaml" := sample_snippets ]};
     log := [];
     docker := {| images := sample_images; containers := ∅; next_cid := 0 |} |}.

Definition sample_env (closes : bool) : Env :=
  {| get_yymm := "22.03";
     beside_script := fun name => "/docs/" +:+ name;
     abspath := fun p => "/work/" +:+ p;
     closes_generator := closes |}.

Definition no_args : Args :=
  {| version := None; file := None; snippets := None |}.



Definition size_attrs : gmap string pyval := {[ "Size" := VInt 10737418240 ]}.

Definition sample_extractor (attrs : gmap string pyval) : SupportMatrixExtractor :=
  use_container (sample_container attrs)
    (init "nvcr.io/nvidia/merlin/merlin-training" "22.03" "/docs/data.json").

(** ** Further vocabulary and samples *)

(** The object an outcome leaves, [d] when it raised. *)
Definition object_of (o : outcome) (d : SupportMatrixExtractor)
  : SupportMatrixExtractor :=
  match o with
  | Ok x _ => x
  | Raised _ _ => d
  end.

(** The world an outcome leaves. *)
Definition world_of (o : outcome) : World :=
  match o with
  | Ok _ w => w
  | Raised _ w => w
  end.

(** A body of the scope interrupted from the keyboard. *)
Definition interrupted_body (v : yielded) (w : World) : completion * World :=
  (Raise KeyboardInterrupt, info "interrupted" w).



(** [w'] differs from [w] at most in the file [f], in the log and in the
    containers. *)
Definition same_but_file (f : string) (w w' : World) : Prop :=
  (forall g, g <> f -> fs w' !! g = fs w !! g)
  /\ yaml_files w' = yaml_files w
  /\ images (docker w') = images (docker w).

(** A daemon whose only image carries its size, and which fails on
    another. *)
Definition sized_images (img : string) : image_lookup :=
  if String.eqb img (image_reference "merlin-training" "22.03")
  then ImagePresent sample_exec size_attrs
  else if String.eqb img (image_reference "merlin-inference" "22.03")
  then DaemonError
  else ImageAbsent.

Definition sized_world : World :=
  {| fs := fs sample_world;
     yaml_files := yaml_files sample_world;
     log := [];
     docker := {| images := sized_images; containers := ∅; next_cid := 0 |} |}.

(** One cycle of the store for a record [r]: a fresh extractor loads
    the file, comes to hold [r] and saves. *)
Definition save_cycle (name rel file : string) (r : record) (w : World)
  : World :=
  world_of (run_all [from_json; to_json_file]
              (set_contdata r (init name rel file)) w).

(** [date.today()], as far as [get_yymm] reads it. *)
Record date : Type := { year : Z; month : Z }.

Definition digit (n : Z) : ascii := ascii_of_nat (48 + Z.to_nat n).

(** A number below 100 on two digits, as [%y] and [%m] print it. *)
Definition two_digits (n : Z) : string :=
  String (digit (n / 10)) (String (digit (n mod 10)) "").

(** [get_yymm()] on the day [today]: [today.strftime("%y.%m")]. *)
Definition get_yymm_on (today : date) : string :=
  two_digits (year today mod 100) +:+ "." +:+ two_digits (month today).

(** The command line [-v 22.03]. *)
Definition versioned_args : Args :=
  {| version := Some "22.03"; file := None; snippets := None |}.

(** * Properties *)

(** ** Text *)

Section Text.

Import PyStr.

#[local] Arguments String.append !_ _ / : simpl nomatch.

Lemma append_nil_r (s : string) : s +:+ "" = s.
Proof. induction s as [|c s IH]; simpl; [reflexivity | now rewrite IH]. Qed.

Lemma append_assoc (a b c : string) : (a +:+ b) +:+ c = a +:+ b +:+ c.
Proof. induction a as [|x a IH]; simpl; [reflexivity | now rewrite IH]. Qed.

Lemma all_whitespace_app (a b : string) :
  all_whitespace (a +:+ b) = all_whitespace a && all_whitespace b.
Proof.
  induction a as [|x a IH]; simpl; [reflexivity |].
  rewrite IH. now rewrite andb_assoc.
Qed.

Lemma is_empty_true (s : string) : is_empty s = true -> s = "".
Proof. destruct s; [reflexivity | discriminate]. Qed.

Lemma snoc_inv (a b : string) (x y : ascii) :
  a +:+ String x "" = b +:+ String y "" -> a = b /\ x = y.
Proof.
  revert b. induction a as [|c a IH]; intros [|d b] H; simpl in H.
  - injection H as ->. auto.
  - injection H as -> H. destruct b; discriminate.
  - injection H as -> H. destruct a; discriminate.
  - injection H as -> H. destruct (IH _ H) as [-> ->]. auto.
Qed.






Lemma no_whitespace_app (a b : string) :
  no_whitespace (a +:+ b) = no_whitespace a && no_whitespace b.
Proof.
  induction a as [|x a IH]; simpl; [reflexivity |].
  rewrite IH. now rewrite andb_assoc.
Qed.

Lemma split_go_nil (s cur : string) :
  split_go cur s = [] -> cur = "" /\ all_whitespace s = true.
Proof.
  revert cur. induction s as [|c s IH]; intros cur; simpl.
  - destruct cur; [auto | discriminate].
  - destruct (is_whitespace c) eqn:Hc.
    + destruct cur; simpl; [| discriminate].
      intros H. destruct (IH _ H) as [_ Hs]. auto.
    + intros H. destruct (IH _ H) as [Hcur _].
      destruct cur; discriminate.
Qed.

Lemma ends_with_space_cons (c : ascii) (pre : string) :
  is_whitespace c = true ->
  (pre = "" \/ exists p d, pre = p +:+ String d "" /\ is_whitespace d = true) ->
  exists p d, String c pre = p +:+ String d "" /\ is_whitespace d = true.
Proof.
  intros Hc [-> | (p & d & -> & Hd)].
  - exists "", c. auto.
  - exists (String c p), d. auto.
Qed.

Lemma split_go_last (s cur tok : string) :
  no_whitespace cur = true ->
  last (split_go cur s) = Some tok ->
  last_token_of (cur +:+ s) tok.
Proof.
  unfold last_token_of.
  revert cur. induction s as [|c s IH]; intros cur Hcur; simpl.
  - destruct cur as [|x cur]; simpl; [discriminate |].
    intros [= <-]. exists "", "". simpl.
    rewrite !append_nil_r. repeat split; auto; try discriminate.
  - destruct (is_whitespace c) eqn:Hc.
    + destruct cur as [|x cur]; simpl.
      * intros H. destruct (IH "" eq_refl H) as (pre & post & Hs & Hne & Hnw & Hpost & Hpre).
        simpl in Hs. exists (String c pre), post. simpl.
        repeat split; auto; [now rewrite Hs at 1 |].
        right. now apply ends_with_space_cons.
      * destruct (split_go "" s) as [|w ws] eqn:Hsp.
        -- intros [= <-]. destruct (split_go_nil _ _ Hsp) as [_ Hs].
           exists "", (String c s). simpl. rewrite Hc, Hs.
           repeat split; auto; try discriminate.
        -- intros H. assert (Hl : last (w :: ws) = Some tok) by exact H.
           rewrite <- Hsp in Hl.
           destruct (IH "" eq_refl Hl) as (pre & post & Hs & Hne & Hnw & Hpost & Hpre).
           simpl in Hs.
           destruct (ends_with_space_cons c pre Hc Hpre) as (p & d & Hp & Hd).
           exists (String x cur +:+ String c pre), post.
           repeat split; auto.
           ++ rewrite append_assoc. simpl. now rewrite Hs at 1.
           ++ right. exists (String x cur +:+ p), d. split; [| exact Hd].
              rewrite Hp. now rewrite append_assoc.
    + intros H.
      assert (Hcur' : no_whitespace (cur +:+ String c "") = true).
      { rewrite no_whitespace_app, Hcur. simpl. now rewrite Hc. }
      destruct (IH _ Hcur' H) as (pre & post & Hs & Hrest).
      exists pre, post. split; [| exact Hrest].
      rewrite <- Hs. now rewrite append_assoc.
Qed.

Lemma split_last_token (line tok : string) :
  last_item (split line) = Some tok -> last_token_of line tok.
Proof. intros H. now apply (split_go_last line "" tok). Qed.

Lemma rstrip_no_whitespace (s : string) :
  no_whitespace s = true -> rstrip s = s.
Proof.
  induction s as [|c s IH]; simpl; [reflexivity |].
  destruct (is_whitespace c); simpl; [discriminate |].
  intros H. now rewrite (IH H).
Qed.

Lemma strip_no_whitespace (s : string) :
  no_whitespace s = true -> strip s = s.
Proof.
  intros H. unfold strip.
  assert (Hl : lstrip s = s).
  { destruct s as [|c s]; simpl in *; [reflexivity |].
    destruct (is_whitespace c); [discriminate | reflexivity]. }
  rewrite Hl. now apply rstrip_no_whitespace.
Qed.

Lemma startswith_app (p s : string) :
  startswith p s = true <-> exists rest, s = p +:+ rest.
Proof.
  unfold startswith. revert s.
  induction p as [|c p IH]; intros s; simpl.
  - split; [intros _; now exists s | intros _; now destruct s].
  - destruct s as [|d s]; simpl.
    + split; [discriminate | intros [rest H]; discriminate].
    + destruct (ascii_dec c d) as [->|Hne].
      * rewrite IH. split; intros [rest H]; exists rest; congruence.
      * split; [discriminate | intros [rest [= H _]]; congruence].
Qed.

Lemma version_line_splits (line : string) :
  startswith "Version:" line = true -> split line <> [].
Proof.
  intros H Hs. apply startswith_app in H as [rest ->].
  apply split_go_nil in Hs as [_ Hs]. discriminate.
Qed.

Lemma split_on_nonempty (sep : ascii) (s : string) : split_on sep s <> [].
Proof.
  destruct s as [|c s]; simpl; [discriminate |].
  destruct (Ascii.eqb c sep); [discriminate |].
  destruct (split_on sep s); discriminate.
Qed.

(** [split_on] cuts at the separators and nowhere else. *)
Lemma split_on_join (s : string) :
  join nl (split_on newline s) = s.
Proof.
  unfold join, nl.
  induction s as [|c s IH]; simpl; [reflexivity |].
  pose proof (split_on_nonempty newline s) as Hne.
  destruct (split_on newline s) as [|w ws]; [contradiction |].
  destruct (Ascii.eqb_spec c newline) as [->|Hc].
  - simpl in *. now rewrite IH.
  - destruct ws; simpl in *; now rewrite <- IH.
Qed.

End Text.

(** ** The extractors *)

Section Extractors.

Import PyStr.

Variables (c : Container) (x : SupportMatrixExtractor) (w : World).

Let x0 := use_container c x.


Lemma get_from_env_eq (lookup : string) (key : option string) :
  get_from_env lookup key x0 w =
    let k := default lookup key in
    let '(err, result) := exec_run c (env_command lookup) in
    if negb (err =? 1) && negb (isspace result)
    then Ok (set_key k (VStr (strip (remove_char dquote result)))
               (set_key k ERROR x0)) w
    else Ok (set_key k ERROR x0)
            (info ("Failed to get env var: '" +:+ lookup +:+ "'") w).
Proof.
  unfold get_from_env, with_exec. simpl.
  destruct (exec_run c (env_command lookup)) as [err result]. reflexivity.
Qed.

Lemma get_from_envfile_eq (path lookup : string) (key : option string) :
  get_from_envfile path lookup key x0 w =
    let k := default lookup key in
    let '(err, result) := exec_run c (envfile_command path lookup) in
    if negb (err =? 1) && negb (isspace result)
    then Ok (set_key k (VStr (strip (remove_char dquote result)))
               (set_key k ERROR x0)) w
    else Ok (set_key k ERROR x0)
            (info ("Failed to get env var '" +:+ lookup
                   +:+ "' from file '" +:+ path +:+ "'") w).
Proof.
  unfold get_from_envfile, with_exec. simpl.
  destruct (exec_run c (envfile_command path lookup)) as [err result].
  reflexivity.
Qed.

Lemma get_from_cmd_eq (cmd key : string) :
  get_from_cmd cmd key x0 w =
    let '(err, output) := exec_run c (bash_command cmd) in
    if negb (err =? 1)
    then Ok (if String.eqb key "sm"
             then set_key key (VStr (join ", " (split output)))
                    (set_key key (VStr (strip output)) (set_key key ERROR x0))
             else set_key key (VStr (strip output)) (set_key key ERROR x0)) w
    else Ok (set_key key ERROR x0)
            (info ("Command '" +:+ cmd +:+ "' failed: " +:+ output) w).
Proof.
  unfold get_from_cmd, with_exec. simpl.
  destruct (exec_run c (bash_command cmd)) as [err output].
  destruct (negb (err =? 1)); [| reflexivity].
  destruct (String.eqb key "sm"); reflexivity.
Qed.


Lemma get_from_pip_eq (lookup : string) (key : option string) :
  get_from_pip lookup key x0 w =
    let k := default lookup key in
    let '(err, output) := exec_run c (pip_command lookup) in
    if negb (err =? 0)
    then Ok (set_key k ERROR x0)
            (info ("Failed to get package version from pip: " +:+ lookup) w)
    else match mapM (fun line => last_item (split line))
                    (version_lines output) with
         | None => Raised IndexError w
         | Some [v] => Ok (set_key k (VStr (strip v)) (set_key k ERROR x0)) w
         | Some _ =>
             Ok (set_key k ERROR x0)
                (info ("Failed to extract version from pip output: "
                       +:+ output) w)
         end.
Proof.
  unfold get_from_pip, with_exec. simpl.
  destruct (exec_run c (pip_command lookup)) as [err output]. reflexivity.
Qed.

(** Every version line has a last token, so the comprehension of
    [get_from_pip] never raises. *)
Lemma version_tokens_defined (output : string) :
  exists toks,
    mapM (fun line => last_item (split line)) (version_lines output) = Some toks
    /\ length toks = length (version_lines output).
Proof.
  assert (H : is_Some (mapM (fun line => last_item (split line))
                            (version_lines output))).
  { apply mapM_is_Some, Forall_forall. intros line Hin.
    unfold version_lines in Hin. apply list_elem_of_filter in Hin as [Hv _].
    unfold last_item. apply last_is_Some. now apply version_line_splits. }
  destruct H as [toks Htoks]. exists toks. split; [exact Htoks |].
  symmetry. now apply length_mapM in Htoks.
Qed.



(** C10. For the env-direct, env-from-file and shell-command extractors
    failure is detected on exit status 1 only: with an output that is
    not all-whitespace, every other status (0, 2, 127, ...) stores the
    output (unquoted and stripped by the two environment extractors;
    stripped, or re-joined with commas under the key sm, by the command
    extractor), and status 1 leaves the sentinel and logs. *)
Theorem failure_detected_on_status_one_only
  (path lookup cmd ckey : string) (key : option string) :
  let k := default lookup key in
  (forall err output,
      exec_run c (env_command lookup) = (err, output) ->
      isspace output = false ->
      (err <> 1 ->
       get_from_env lookup key x0 w
       = Ok (set_key k (VStr (strip (remove_char dquote output)))
               (set_key k ERROR x0)) w)
      /\ (err = 1 ->
          get_from_env lookup key x0 w
          = Ok (set_key k ERROR x0)
               (info ("Failed to get env var: '" +:+ lookup +:+ "'") w)))
  /\ (forall err output,
      exec_run c (envfile_command path lookup) = (err, output) ->
      isspace output = false ->
      (err <> 1 ->
       get_from_envfile path lookup key x0 w
       = Ok (set_key k (VStr (strip (remove_char dquote output)))
               (set_key k ERROR x0)) w)
      /\ (err = 1 ->
          get_from_envfile path lookup key x0 w
          = Ok (set_key k ERROR x0)
               (info ("Failed to get env var '" +:+ lookup
                      +:+ "' from file '" +:+ path +:+ "'") w)))
  /\ (forall err output,
      exec_run c (bash_command cmd) = (err, output) ->
      isspace output = false ->
      (err <> 1 ->
       exists x',
         get_from_cmd cmd ckey x0 w = Ok x' w
         /\ contdata x'
            = <[ckey := VStr (if String.eqb ckey "sm"
                              then join ", " (split output)
                              else strip output)]> (contdata x0))
      /\ (err = 1 ->
          get_from_cmd cmd ckey x0 w
          = Ok (set_key ckey ERROR x0)
               (info ("Command '" +:+ cmd +:+ "' failed: " +:+ output) w))).
Proof.
  intros k. split; [| split]; intros err output Hexec Hsp.
  - rewrite get_from_env_eq, Hexec. cbv zeta. fold k. rewrite Hsp.
    split; intros Herr.
    + apply Z.eqb_neq in Herr. now rewrite Herr.
    + subst err. reflexivity.
  - rewrite get_from_envfile_eq, Hexec. cbv zeta. fold k. rewrite Hsp.
    split; intros Herr.
    + apply Z.eqb_neq in Herr. now rewrite Herr.
    + subst err. reflexivity.
  - rewrite get_from_cmd_eq, Hexec.
    split; intros Herr.
    + apply Z.eqb_neq in Herr. rewrite Herr. simpl.
      eexists. split; [reflexivity |].
      destruct (String.eqb ckey "sm"); simpl;
        now rewrite ?insert_insert_eq.
    + subst err. reflexivity.
Qed.



(** When the Size attribute is absent the lookup inside the [try] is
    caught and logged, and the second lookup, outside it, raises. *)
Lemma get_from_image_size_absent (key : option string) :
  image_attrs c !! "Size" = None ->
  get_from_image "Size" key x0 w
  = Raised (KeyError "Size")
      (info "Failed to get attr from image: 'Size'" w).
Proof.
  intros H. unfold get_from_image. simpl. now rewrite H.
Qed.


End Extractors.

(** ** The data store: loading and merging *)

Section Store.

Lemma merge_level_lookup {A : Type} (f : A -> A -> A)
  (dst src : gmap string A) (k : string) :
  merge_level f dst src !! k
  = union_with (fun d s => Some (f d s)) (dst !! k) (src !! k).
Proof. unfold merge_level. apply lookup_union_with. Qed.

Lemma merge_level_empty_l {A : Type} (f : A -> A -> A) (src : gmap string A) :
  merge_level f ∅ src = src.
Proof.
  apply map_eq. intros k. rewrite merge_level_lookup, lookup_empty.
  now destruct (src !! k).
Qed.

Lemma setdefault_lookup {A : Type} (k k' : string) (v : A) (d : gmap string A) :
  setdefault k v d !! k'
  = if decide (k = k') then Some (default v (d !! k)) else d !! k'.
Proof.
  unfold setdefault. destruct (d !! k) as [a|] eqn:Hk.
  - case_decide; [subst; now rewrite Hk | reflexivity].
  - rewrite lookup_insert. case_decide; reflexivity.
Qed.

Lemma ensure_path_lookup (name rel n : string) (D : store) :
  ensure_path name rel D !! n
  = if decide (name = n)
    then Some (setdefault rel ∅ (default ∅ (D !! name)))
    else D !! n.
Proof.
  unfold ensure_path.
  rewrite (setdefault_lookup name name). rewrite decide_True by reflexivity.
  rewrite lookup_insert. case_decide; [reflexivity |].
  rewrite setdefault_lookup. now rewrite decide_False.
Qed.

(** What [merge({}, _data, self.data)] holds. *)
Lemma merged_lookup (name rel n : string) (r : record) (D : store) :
  merge ∅ [ensure_path name rel D; {[ name := {[ rel := r ]} ]}] !! n
  = if decide (name = n)
    then Some (<[rel := r ∪ default ∅ (default ∅ (D !! name) !! rel)]>
                 (default ∅ (D !! name)))
    else D !! n.
Proof.
  unfold merge. simpl. unfold deepmerge. rewrite merge_level_empty_l.
  rewrite merge_level_lookup, ensure_path_lookup, lookup_singleton.
  case_decide; simpl; [| now destruct (D !! n)].
  f_equal. apply map_eq. intros k.
  rewrite merge_level_lookup, setdefault_lookup, lookup_insert, lookup_singleton.
  case_decide; simpl; [| now destruct (default ∅ (D !! name) !! k)].
  unfold merge_record. reflexivity.
Qed.

(** After [from_json] the entry of the current name and release is the
    [contdata] object itself, whatever it comes to hold ([r']); every
    other entry is the one loaded from the file. *)
Lemma from_json_store (x : SupportMatrixExtractor) (w : World) :
  data x = {[ container_name x := {[ release x := Shared ]} ]} ->
  let D := default ∅ (fs w !! datafile x) in
  exists d,
    from_json x w = Ok (set_data d x) w
    /\ forall r',
        resolve (set_contdata r' (set_data d x))
        = <[container_name x :=
              <[release x := r']> (default ∅ (D !! container_name x))]> D.
Proof.
  intros Hdata D. unfold from_json. subst D.
  assert (Hres : resolve x
                 = {[ container_name x := {[ release x := contdata x ]} ]}).
  { unfold resolve. rewrite Hdata, map_fmap_singleton. f_equal.
    now rewrite map_fmap_singleton. }
  destruct (fs w !! datafile x) as [D|] eqn:HD; cbv zeta.
  - rewrite Hres.
    set (merged := merge ∅ [ensure_path (container_name x) (release x) D; _]).
    assert (Hm : forall n, merged !! n
      = if decide (container_name x = n)
        then Some (<[release x := contdata x
                       ∪ default ∅ (default ∅ (D !! container_name x)
                                      !! release x)]>
                     (default ∅ (D !! container_name x)))
        else D !! n) by (intros n; apply merged_lookup).
    clearbody merged.
    rewrite (Hm (container_name x)), decide_True by reflexivity.
    eexists. split; [reflexivity |]. intros r'.
    unfold resolve. simpl.
    apply map_eq. intros n. rewrite lookup_fmap, !lookup_insert.
    case_decide; simpl.
    + f_equal. rewrite fmap_insert. simpl. rewrite <- map_fmap_compose.
      rewrite fmap_insert. rewrite insert_insert_eq. f_equal.
      apply map_fmap_id.
    + rewrite lookup_fmap, Hm, decide_False by assumption.
      destruct (D !! n) as [rs|]; simpl; [| reflexivity].
      f_equal. rewrite <- map_fmap_compose. apply map_fmap_id.
  - exists (data x). split; [now destruct x |]. intros r'.
    unfold resolve. simpl. rewrite Hdata, lookup_empty. simpl.
    rewrite map_fmap_singleton. simpl. rewrite map_fmap_singleton. simpl.
    rewrite insert_empty. now rewrite insert_empty.
Qed.

(** C2. Loading the store and merging the fresh record of (name,
    release) into it gives a store whose entry at (name, release) is
    exactly the fresh record, no key of the old entry surviving, and
    whose every other entry is the one that was in the file. *)
Theorem from_json_replaces_only_its_entry
  (name rel file : string) (r : record) (w : World) :
  let D := default ∅ (fs w !! file) in
  exists x1,
    from_json (set_contdata r (init name rel file)) w = Ok x1 w
    /\ entry_at (resolve x1) name rel = Some r
    /\ (forall name' rel', (name', rel') <> (name, rel) ->
        entry_at (resolve x1) name' rel' = entry_at D name' rel')
    /\ (forall name', name' <> name -> resolve x1 !! name' = D !! name').
Proof.
  intros D.
  destruct (from_json_store (set_contdata r (init name rel file)) w eq_refl)
    as (d & Hx & Hres).
  specialize (Hres r). simpl in Hres. fold D in Hres.
  eexists. split; [exact Hx |].
  change (set_data d (set_contdata r (init name rel file)))
    with (set_contdata r (set_data d (set_contdata r (init name rel file)))).
  rewrite Hres. unfold entry_at.
  split; [| split].
  - rewrite lookup_insert_eq. simpl. apply lookup_insert_eq.
  - intros name' rel' Hne. rewrite lookup_insert. case_decide.
    + subst name'. simpl.
      rewrite lookup_insert_ne by congruence.
      now destruct (D !! name).
    + reflexivity.
  - intros name' Hne. now rewrite lookup_insert_ne.
Qed.

(** [to_json_file] writes what [self.data] shows at that moment. *)
Lemma to_json_file_writes (x : SupportMatrixExtractor) (w : World) :
  exists w',
    to_json_file x w = Ok x w'
    /\ fs w' !! datafile x = Some (resolve x)
    /\ (forall f, f <> datafile x -> fs w' !! f = fs w !! f)
    /\ docker w' = docker w /\ log w' = log w.
Proof.
  eexists. split; [reflexivity |]. simpl.
  split; [apply lookup_insert_eq |].
  split; [| auto]. intros f Hf. now apply lookup_insert_ne.
Qed.

End Store.

(** ** The container session *)

Section Session.

Variables (closes : bool) (img : string)
  (body : yielded -> World -> completion * World) (w : World).

Variables (exec : string -> Z * string) (attrs : gmap string pyval).

Hypothesis image_present : images (docker w) img = ImagePresent exec attrs.

(** The container the session starts, and the world once it runs. *)
Let c : Container :=
  {| cid := next_cid (docker w); exec_run := exec; image_attrs := attrs |}.

Let w1 : World := set_docker (snd (containers_run img (docker w))) w.

Lemma session_starts :
  gen_next (GStart img) w = (Yield (YContainer c), GAtYield c, w1).
Proof.
  unfold gen_next, w1, c, containers_run. now rewrite image_present.
Qed.

Lemma started_container_runs :
  containers (docker w1) !! cid c = Some Running.
Proof.
  unfold w1, c, containers_run. rewrite image_present. simpl.
  apply lookup_insert_eq.
Qed.

Lemma finally_removes (w' : World) :
  containers (docker (finally_clause (Some c) w')) !! cid c = None
  /\ fs (finally_clause (Some c) w') = fs w'
  /\ log (finally_clause (Some c) w') = log w'.
Proof. simpl. split; [apply lookup_delete_eq | auto]. Qed.

(** When the body ends without an exception (it falls through, or
    skips with [continue]) the [finally] clause runs: the container is
    stopped and removed. *)
Lemma session_cleans_up_on_completion (k : completion) (w2 : World) :
  body (YContainer c) w1 = (k, w2) ->
  (forall e, k <> Raise e) ->
  with_managed_container closes img body w = (k, finally_clause (Some c) w2)
  /\ containers (docker (finally_clause (Some c) w2)) !! cid c = None.
Proof.
  intros Hbody Hk. split; [| apply finally_removes].
  unfold with_managed_container. rewrite session_starts, Hbody.
  destruct k as [| |e]; simpl; try reflexivity.
  now destruct (Hk e).
Qed.

(** An exception below [Exception] that leaves the body is thrown into
    the generator at its [yield], inside the [try]: an [except] clause
    catches it and yields again, and [__exit__] answers with a
    [RuntimeError].  Whether [finally] has run by then depends on the
    [contextlib] in use. *)
Lemma session_on_exception (e : exn) (w2 : World) :
  body (YContainer c) w1 = (Raise e, w2) ->
  is_Exception e = true ->
  with_managed_container closes img body w
  = (Raise (RuntimeError "generator didn't stop after throw()"),
     if closes then finally_clause (Some c) w2 else w2).
Proof.
  intros Hbody He.
  unfold with_managed_container. rewrite session_starts, Hbody.
  unfold cm_exit, gen_throw, try_raises. rewrite He, orb_true_r.
  destruct closes; reflexivity.
Qed.

(** C3, at its failing input. With a [contextlib] that does not close
    the generator, an exception of the extraction code leaves the scope
    as a [RuntimeError] and the container that was started is still
    running in the world the scope leaves. *)
Theorem exception_in_scope_leaves_container_running (e : exn) (w2 : World) :
  closes = false ->
  body (YContainer c) w1 = (Raise e, w2) ->
  is_Exception e = true ->
  containers (docker w2) !! cid c = Some Running ->
  exists w3,
    with_managed_container closes img body w
    = (Raise (RuntimeError "generator didn't stop after throw()"), w3)
    /\ containers (docker w3) !! cid c = Some Running.
Proof.
  intros Hc Hbody He Hrun. exists w2.
  rewrite (session_on_exception e w2 Hbody He), Hc. auto.
Qed.

(** With a [contextlib] that closes the generator the same exit runs
    [finally] before the [RuntimeError] leaves. *)
Lemma exception_in_scope_with_closing (e : exn) (w2 : World) :
  closes = true ->
  body (YContainer c) w1 = (Raise e, w2) ->
  is_Exception e = true ->
  exists w3,
    with_managed_container closes img body w
    = (Raise (RuntimeError "generator didn't stop after throw()"), w3)
    /\ containers (docker w3) !! cid c = None.
Proof.
  intros Hc Hbody He. exists (finally_clause (Some c) w2).
  rewrite (session_on_exception e w2 Hbody He), Hc.
  split; [reflexivity | apply finally_removes].
Qed.

End Session.

(** ** The driver *)

Section Driver.

(** Splits a returned call into the cases of its body. *)
Ltac method_cases :=
  repeat match goal with
         | H : context [match ?e with _ => _ end] |- _ =>
             let E := fresh "E" in destruct e eqn:E; simpl in H
         end;
  simplify_eq.

Ltac frame_method :=
  let x := fresh "x" in let w := fresh "w" in
  let x' := fresh "x'" in let w' := fresh "w'" in
  let H := fresh "H" in
  intros x w x' w' H;
  unfold get_from_env, get_from_envfile, get_from_pip, get_from_image,
    get_from_cmd, base_container_rule, read_key, insert_standard_snippet,
    insert_snippet, log_contdata, to_json_file, with_exec in H;
  simpl in H; method_cases;
  simpl; rewrite ?lookup_insert_ne by assumption;
  repeat split; try reflexivity; try (destruct x; reflexivity).

Lemma preserves_get_from_env (k lookup : string) (key : option string) :
  default lookup key <> k -> preserves k (get_from_env lookup key).
Proof. intros Hk. frame_method. Qed.

Lemma preserves_get_from_envfile (k path lookup : string) (key : option string) :
  default lookup key <> k -> preserves k (get_from_envfile path lookup key).
Proof. intros Hk. frame_method. Qed.

Lemma preserves_get_from_pip (k lookup : string) (key : option string) :
  default lookup key <> k -> preserves k (get_from_pip lookup key).
Proof. intros Hk. frame_method. Qed.

Lemma preserves_get_from_image (k lookup : string) (key : option string) :
  default lookup key <> k -> preserves k (get_from_image lookup key).
Proof. intros Hk. frame_method. Qed.

Lemma preserves_get_from_cmd (k cmd key : string) :
  key <> k -> preserves k (get_from_cmd cmd key).
Proof. intros Hk. frame_method. Qed.

Lemma preserves_insert_snippet (k key : string) (v : pyval) :
  key <> k -> preserves k (insert_snippet key v).
Proof. intros Hk. frame_method. Qed.

Lemma frames_get_from_env (lookup : string) (key : option string) :
  frames (get_from_env lookup key).
Proof. frame_method. Qed.

Lemma frames_get_from_envfile (path lookup : string) (key : option string) :
  frames (get_from_envfile path lookup key).
Proof. frame_method. Qed.

Lemma frames_get_from_pip (lookup : string) (key : option string) :
  frames (get_from_pip lookup key).
Proof. frame_method. Qed.

Lemma frames_get_from_image (lookup : string) (key : option string) :
  frames (get_from_image lookup key).
Proof. frame_method. Qed.

Lemma frames_get_from_cmd (cmd key : string) : frames (get_from_cmd cmd key).
Proof. frame_method. Qed.

Lemma frames_insert_snippet (key : string) (v : pyval) :
  frames (insert_snippet key v).
Proof. frame_method. Qed.

Lemma frames_insert_standard_snippet (sniptext : record) (key : string) :
  frames (insert_standard_snippet sniptext key).
Proof. frame_method. Qed.

Lemma preserves_insert_standard_snippet (k : string) (sniptext : record) (key : string) :
  key <> k -> preserves k (insert_standard_snippet sniptext key).
Proof. intros Hk. frame_method. Qed.

Lemma frames_base_container_rule (cont : string) :
  frames (base_container_rule cont).
Proof. frame_method. Qed.

Lemma preserves_base_container_rule (k cont : string) :
  "base_container" <> k -> preserves k (base_container_rule cont).
Proof. intros Hk. frame_method. Qed.

Lemma preserves_log_contdata (k : string) : preserves k log_contdata.
Proof. frame_method. Qed.

Lemma preserves_to_json_file (k : string) : preserves k to_json_file.
Proof. frame_method. Qed.

Lemma preserves_from_json (k : string) : preserves k from_json.
Proof. intros x w x' w' H. unfold from_json in H. method_cases; reflexivity. Qed.

Lemma run_all_app (ms1 ms2 : list method) (x : SupportMatrixExtractor) (w : World) :
  run_all (ms1 ++ ms2) x w
  = match run_all ms1 x w with
    | Ok x1 w1 => run_all ms2 x1 w1
    | Raised e w1 => Raised e w1
    end.
Proof.
  revert x w. induction ms1 as [|m ms1 IH]; intros x w; simpl; [reflexivity |].
  unfold and_then. destruct (m x w) as [x1 w1|e w1]; [apply IH | reflexivity].
Qed.

Lemma preserves_run_all (k : string) (ms : list method) :
  Forall (preserves k) ms -> preserves k (run_all ms).
Proof.
  induction 1 as [|m ms Hm _ IH]; intros x w x' w' H; simpl in H.
  - now injection H as <- <-.
  - unfold and_then in H. destruct (m x w) as [x1 w1|] eqn:E; [| discriminate].
    rewrite (IH _ _ _ _ H). now apply (Hm x w x1 w1).
Qed.

Lemma frames_run_all (ms : list method) :
  Forall frames ms -> frames (run_all ms).
Proof.
  induction 1 as [|m ms Hm _ IH]; intros x w x' w' H; simpl in H.
  - injection H as <- <-. repeat split. now destruct x.
  - unfold and_then in H. destruct (m x w) as [x1 w1|] eqn:E; [| discriminate].
    destruct (Hm _ _ _ _ E) as (Hx1 & Hfs1 & Hd1 & Hy1).
    destruct (IH _ _ _ _ H) as (Hx' & Hfs & Hd & Hy).
    repeat split; try congruence.
    rewrite Hx', Hx1. reflexivity.
Qed.

Lemma extractions_preserve (k : string) :
  k ∉ ["size"; "os"; "cuda"; "rmm"; "cudf"; "cudnn"; "nvtabular";
       "transformers4rec"; "merlin.core"; "merlin.systems"; "merlin.models";
       "hugectr2onnx"; "hugectr"; "sparse_operation_kit"; "tf"; "pytorch";
       "cublas"; "cufft"; "curand"; "cusolver"; "cusparse"; "cutensor";
       "nvidia_tensorflow"; "nvidia_pytorch"; "openmpi"; "tensorrt";
       "base_container"; "sm"; "triton"; "python_major"] ->
  Forall (preserves k) extractions.
Proof.
  intros Hk. unfold extractions.
  repeat (constructor;
          [first [apply preserves_get_from_env | apply preserves_get_from_envfile
                 | apply preserves_get_from_pip | apply preserves_get_from_image
                 | apply preserves_get_from_cmd];
           simpl; intros <-; apply Hk;
           repeat first [apply list_elem_of_here | apply list_elem_of_further] |]).
  constructor.
Qed.

Lemma extractions_frame : Forall frames extractions.
Proof.
  unfold extractions.
  repeat (constructor;
          [first [apply frames_get_from_env | apply frames_get_from_envfile
                 | apply frames_get_from_pip | apply frames_get_from_image
                 | apply frames_get_from_cmd] |]).
  constructor.
Qed.

Lemma set_contdata_twice (a b : record) (x : SupportMatrixExtractor) :
  set_contdata a (set_contdata b x) = set_contdata a x.
Proof. reflexivity. Qed.

Lemma snippets_frame (sniptext : record) (ks : list string) :
  Forall frames (map (insert_standard_snippet sniptext) ks).
Proof.
  apply Forall_map, Forall_forall. intros k _.
  apply frames_insert_standard_snippet.
Qed.

(** What processing one container leaves: the record holds the raw
    command-line version under the key release, and the file holds the
    store it held before with the entry of this container and release
    replaced by the record. *)
Lemma extract_container_outcome (args : Args) (sniptext : record)
  (cont name ver jsonfile : string) (c : Container) (w : World)
  (x' : SupportMatrixExtractor) (w' : World) :
  let D := default ∅ (fs w !! jsonfile) in
  extract_container args sniptext cont
    (use_container c (init name ver jsonfile)) w = Ok x' w' ->
  contdata x' !! "release" = Some (arg_value (version args))
  /\ fs w' = <[jsonfile := <[name := <[ver := contdata x']>
                                       (default ∅ (D !! name))]> D]> (fs w)
  /\ docker w' = docker w.
Proof.
  intros D H. unfold extract_container in H.
  rewrite run_all_app in H.
  set (x := use_container c (init name ver jsonfile)) in *.
  destruct (from_json_store x w eq_refl) as (d & Hload & Hres).
  change (run_all [from_json] x w) with (and_then from_json ret x w) in H.
  unfold and_then at 1 in H. rewrite Hload in H. unfold ret at 1 in H.
  rewrite run_all_app in H.
  destruct (run_all (map _ standard_snippets) _ w) as [x2 w2|] eqn:E2;
    [| discriminate].
  apply (frames_run_all _ (snippets_frame _ _)) in E2
    as (Hx2 & Hfs2 & Hd2 & _).
  rewrite run_all_app in H.
  change (run_all [insert_snippet "release" (arg_value (version args))] x2 w2)
    with (Ok (set_key "release" (arg_value (version args)) x2) w2) in H.
  cbv beta iota in H.
  rewrite run_all_app in H.
  destruct (run_all extractions _ w2) as [x4 w4|] eqn:E4; [| discriminate].
  pose proof (preserves_run_all "release" _
                (extractions_preserve "release"
                   ltac:(apply (bool_decide_unpack _); vm_compute; exact I)) _ _ _ _ E4)
    as Hrel4.
  apply (frames_run_all _ extractions_frame) in E4 as (Hx4 & Hfs4 & Hd4 & _).
  simpl in H. unfold and_then in H.
  destruct (base_container_rule cont x4 w4) as [x5 w5|] eqn:E5;
    [| discriminate].
  pose proof (preserves_base_container_rule "release" cont
                ltac:(discriminate) _ _ _ _ E5) as Hrel5.
  apply frames_base_container_rule in E5 as (Hx5 & Hfs5 & Hd5 & _).
  unfold to_json_file, log_contdata, ret in H. injection H as <- <-.
  split; [| split].
  - rewrite Hrel5, Hrel4. simpl. apply lookup_insert_eq.
  - simpl. rewrite Hfs5, Hfs4, Hfs2.
    assert (Hx : x5 = set_contdata (contdata x5) (set_data d x)).
    { rewrite Hx5 at 1. rewrite Hx4, Hx2. reflexivity. }
    rewrite Hx at 1 2. rewrite Hres. reflexivity.
  - simpl. congruence.
Qed.


(** C5. When the image of a container does not exist the loop logs the
    skip and goes on with the containers that follow, in a world whose
    files and containers are the ones it found. *)
Theorem missing_image_is_skipped (env : Env) (args : Args) (sniptext : record)
  (ver jsonfile cont : string) (rest : list string) (w : World) :
  images (docker w) (image_reference cont ver) = ImageAbsent ->
  let w' := info "...image is not found."
              (info ("Extracting information from: "
                     +:+ image_reference cont ver) w) in
  fs w' = fs w
  /\ docker w' = docker w
  /\ log w' = log w ++ [Info ("Extracting information from: "
                              +:+ image_reference cont ver);
                        Info "...image is not found."]
  /\ main_loop env args sniptext ver jsonfile (cont :: rest) w
     = main_loop env args sniptext ver jsonfile rest w'.
Proof.
  intros Himg w'. split; [reflexivity |]. split; [reflexivity |].
  split; [simpl; now rewrite <- app_assoc |].
  simpl. unfold with_managed_container, gen_next, containers_run. simpl.
  rewrite Himg. reflexivity.
Qed.

(** C6, at its failing input. The key release receives the command-line
    argument as given, not the release of the run: without the argument
    the record holds [None] while the run uses the current year-month. *)
Theorem release_snippet_is_the_raw_argument (env : Env) (args : Args)
  (sniptext : record) (cont name jsonfile : string) (c : Container)
  (w : World) (x' : SupportMatrixExtractor) (w' : World) :
  version args = None ->
  extract_container args sniptext cont
    (use_container c (init name (run_version env args) jsonfile)) w
  = Ok x' w' ->
  run_version env args = get_yymm env
  /\ contdata x' !! "release" = Some VNone
  /\ (fs w' !! jsonfile ≫= fun s => entry_at s name (get_yymm env))
     = Some (contdata x').
Proof.
  intros Hv H.
  assert (Hrun : run_version env args = get_yymm env).
  { unfold run_version. now rewrite Hv. }
  rewrite Hrun in H.
  destruct (extract_container_outcome _ _ _ _ _ _ _ _ _ _ H) as (Hrel & Hfs & _).
  rewrite Hv in Hrel. split; [exact Hrun |]. split; [exact Hrel |].
  rewrite Hfs, lookup_insert_eq. simpl. unfold entry_at.
  rewrite lookup_insert_eq. simpl. apply lookup_insert_eq.
Qed.

End Driver.

(** ** The extractor calls of one container *)

Section Pipeline.

(** A returned call of an environment or command extractor leaves text
    under its key. *)
Lemma get_from_env_sets_text (lookup : string) (key : option string)
  (x : SupportMatrixExtractor) (w : World) (x' : SupportMatrixExtractor) (w' : World) :
  get_from_env lookup key x w = Ok x' w' ->
  exists s, contdata x' !! default lookup key = Some (VStr s).
Proof.
  unfold get_from_env, with_exec. simpl. intros H.
  repeat match goal with
         | H : context [match ?e with _ => _ end] |- _ =>
             let E := fresh "E" in destruct e eqn:E; simpl in H
         end; simplify_eq; simpl; rewrite lookup_insert_eq; eauto.
Qed.

Lemma get_from_cmd_sets_text (cmd key : string)
  (x : SupportMatrixExtractor) (w : World) (x' : SupportMatrixExtractor) (w' : World) :
  get_from_cmd cmd key x w = Ok x' w' ->
  exists s, contdata x' !! key = Some (VStr s).
Proof.
  unfold get_from_cmd, with_exec. simpl. intros H.
  repeat match goal with
         | H : context [match ?e with _ => _ end] |- _ =>
             let E := fresh "E" in destruct e eqn:E; simpl in H
         end; simplify_eq; simpl; rewrite lookup_insert_eq; eauto.
Qed.

Lemma run_all_sets_text (k : string) (ms1 : list method) (m : method)
  (ms2 : list method) (x : SupportMatrixExtractor) (w : World)
  (x' : SupportMatrixExtractor) (w' : World) :
  run_all (ms1 ++ m :: ms2) x w = Ok x' w' ->
  (forall y v y' v', m y v = Ok y' v' ->
                     exists s, contdata y' !! k = Some (VStr s)) ->
  Forall (preserves k) ms2 ->
  exists s, contdata x' !! k = Some (VStr s).
Proof.
  intros H Hm Hpost. rewrite run_all_app in H.
  destruct (run_all ms1 x w) as [x1 w1|]; [| discriminate].
  simpl in H. unfold and_then in H.
  destruct (m x1 w1) as [x2 w2|] eqn:E; [| discriminate].
  destruct (Hm _ _ _ _ E) as [s Hs]. exists s.
  now rewrite (preserves_run_all k ms2 Hpost _ _ _ _ H).
Qed.

Ltac preserved_by_rest :=
  repeat (constructor;
          [first [apply preserves_get_from_env | apply preserves_get_from_cmd];
           discriminate |]);
  constructor.

(** When the extractor calls of [main] all return, the keys the rule for
    base_container reads hold text. *)
Lemma extractions_provide_rule_inputs
  (x : SupportMatrixExtractor) (w : World) (x' : SupportMatrixExtractor) (w' : World) :
  run_all extractions x w = Ok x' w' ->
  forall k, k ∈ ["nvidia_tensorflow"; "nvidia_pytorch"; "base_container";
                 "python_major"] ->
            exists s, contdata x' !! k = Some (VStr s).
Proof.
  intros H k Hk.
  repeat (apply elem_of_cons in Hk as [-> | Hk]); [| | | | inversion Hk].
  - apply (run_all_sets_text "nvidia_tensorflow" (take 22 extractions)
             (get_from_env "NVIDIA_TENSORFLOW_VERSION" (Some "nvidia_tensorflow"))
             (drop 23 extractions) x w x' w' H).
    + intros y v y' v'. apply get_from_env_sets_text.
    + simpl. preserved_by_rest.
  - apply (run_all_sets_text "nvidia_pytorch" (take 23 extractions)
             (get_from_env "NVIDIA_PYTORCH_VERSION" (Some "nvidia_pytorch"))
             (drop 24 extractions) x w x' w' H).
    + intros y v y' v'. apply get_from_env_sets_text.
    + simpl. preserved_by_rest.
  - apply (run_all_sets_text "base_container" (take 26 extractions)
             (get_from_env "TRTOSS_VERSION" (Some "base_container"))
             (drop 27 extractions) x w x' w' H).
    + intros y v y' v'. apply get_from_env_sets_text.
    + simpl. preserved_by_rest.
  - apply (run_all_sets_text "python_major" (take 29 extractions)
             (get_from_cmd python_major_command "python_major")
             (drop 30 extractions) x w x' w' H).
    + intros y v y' v'. apply get_from_cmd_sets_text.
    + simpl. preserved_by_rest.
Qed.

End Pipeline.

(** ** The sample run *)

Section Samples.


(** The third image of the sample has no Size attribute: the extraction
    raises [KeyError] and the container stays. *)
Lemma exception_in_scope_witness :
  exists w3,
    with_managed_container false
      (image_reference "merlin-pytorch-training" "22.03")
      (with_body no_args sample_snippets "merlin-pytorch-training" "22.03"
         "/docs/data.json") sample_world
    = (Raise (RuntimeError "generator didn't stop after throw()"), w3)
    /\ containers (docker w3) !! 0%nat = Some Running.
Proof.
  refine (exception_in_scope_leaves_container_running false
            (image_reference "merlin-pytorch-training" "22.03")
            (with_body no_args sample_snippets "merlin-pytorch-training"
               "22.03" "/docs/data.json")
            sample_world sample_exec ∅ eq_refl (KeyError "Size") _
            eq_refl _ eq_refl _).
  - vm_compute. reflexivity.
  - vm_compute. reflexivity.
Defined.

(** The second image of the sample does not exist. *)
Lemma missing_image_witness :
  main_loop (sample_env false) no_args sample_snippets "22.03"
    "/docs/data.json" ["merlin-tensorflow-training"] sample_world
  = (None,
     info "...image is not found."
       (info ("Extracting information from: "
              +:+ image_reference "merlin-tensorflow-training" "22.03")
          sample_world)).
Proof.
  destruct (missing_image_is_skipped (sample_env false) no_args
              sample_snippets "22.03" "/docs/data.json"
              "merlin-tensorflow-training" [] sample_world eq_refl)
    as (_ & _ & _ & H).
  exact H.
Defined.

(** The first image of the sample, run without a version argument. *)
Lemma release_snippet_witness :
  exists x' w',
    extract_container no_args sample_snippets "merlin-training"
      (sample_extractor size_attrs) sample_world = Ok x' w'
    /\ contdata x' !! "release" = Some VNone
    /\ run_version (sample_env false) no_args = "22.03".
Proof.
  destruct (extract_container no_args sample_snippets "merlin-training"
              (sample_extractor size_attrs) sample_world)
    as [x' w'|e w'] eqn:E.
  - exists x', w'. split; [reflexivity |].
    destruct (release_snippet_is_the_raw_argument (sample_env false) no_args
                sample_snippets "merlin-training"
                "nvcr.io/nvidia/merlin/merlin-training" "/docs/data.json"
                (sample_container size_attrs) sample_world x' w' eq_refl E)
      as (Hrun & Hrel & _).
    split; [exact Hrel | exact Hrun].
  - vm_compute in E. discriminate E.
Defined.



(** The sample run: the first container is extracted and saved, the
    second is skipped, the third raises in the scope. *)
Example sample_run :
  let r := main (sample_env false) no_args sample_world in
  fst r = Some (RuntimeError "generator didn't stop after throw()")
  /\ containers (docker (snd r)) !! 0%nat = None
  /\ containers (docker (snd r)) !! 1%nat = Some Running
  /\ (fs (snd r) !! "/docs/data.json"
        ≫= fun s => entry_at s "nvcr.io/nvidia/merlin/merlin-training" "22.02")
     = Some {[ "cuda" := VStr "11.5" ]}.
Proof. vm_compute. repeat split. Qed.

Example sample_run_closing :
  let r := main (sample_env true) no_args sample_world in
  fst r = Some (RuntimeError "generator didn't stop after throw()")
  /\ containers (docker (snd r)) = ∅.
Proof. vm_compute. repeat split. Qed.

Example isspace_of_empty : PyStr.isspace "" = false.
Proof. reflexivity. Qed.

Example float_repr_examples :
  float_repr_hundredths 1000 = "10.0"
  /\ float_repr_hundredths 987 = "9.87"
  /\ float_repr_hundredths 980 = "9.8"
  /\ float_repr_hundredths 5 = "0.05"
  /\ format_gb 134217728 = "0.12 GB".
Proof. vm_compute. repeat split. Qed.

(** An empty output is not whitespace for [str.isspace]: the environment
    extractors store the empty text. *)
Lemma empty_output_is_stored (c : Container) (x : SupportMatrixExtractor)
  (w : World) (lookup : string) (key : option string) :
  exec_run c (env_command lookup) = (0, "") ->
  get_from_env lookup key (use_container c x) w
  = Ok (set_key (default lookup key) (VStr "")
          (set_key (default lookup key) ERROR (use_container c x))) w.
Proof. intros H. now rewrite get_from_env_eq, H. Qed.

(** The architecture list: three lines become one comma-separated text. *)
Example sm_list_is_joined :
  exists x',
    get_from_cmd sm_command "sm" (sample_extractor size_attrs) sample_world
    = Ok x' sample_world
    /\ contdata x' !! "sm" = Some (VStr "70, 75, 80").
Proof. eexists. split; reflexivity. Qed.

End Samples.

(** ** More on the extractors *)

Section ExtractorEdges.

Import PyStr.

#[local] Arguments String.append !_ _ / : simpl nomatch.

Variables (c : Container) (x : SupportMatrixExtractor) (w : World).

Let x0 := use_container c x.



(** X3. A call of an extractor, or of [insert_snippet], that returns has
    changed one thing in the object, the record, and in it no key but
    the one it was asked for; files, containers and the data loaded from
    the store are as before. *)
Theorem extractor_calls_touch_one_key
  (path lookup cmd ckey skey : string) (key : option string) (v : pyval) :
  let k := default lookup key in
  (frames (get_from_env lookup key)
   /\ forall k', k' <> k -> preserves k' (get_from_env lookup key))
  /\ (frames (get_from_envfile path lookup key)
      /\ forall k', k' <> k -> preserves k' (get_from_envfile path lookup key))
  /\ (frames (get_from_pip lookup key)
      /\ forall k', k' <> k -> preserves k' (get_from_pip lookup key))
  /\ (frames (get_from_image lookup key)
      /\ forall k', k' <> k -> preserves k' (get_from_image lookup key))
  /\ (frames (get_from_cmd cmd ckey)
      /\ forall k', k' <> ckey -> preserves k' (get_from_cmd cmd ckey))
  /\ (frames (insert_snippet skey v)
      /\ forall k', k' <> skey -> preserves k' (insert_snippet skey v)).
Proof.
  intros k.
  split; [| split; [| split; [| split; [| split]]]]; (split; [| intros k' Hk]).
  - apply frames_get_from_env.
  - apply preserves_get_from_env. now apply not_eq_sym.
  - apply frames_get_from_envfile.
  - apply preserves_get_from_envfile. now apply not_eq_sym.
  - apply frames_get_from_pip.
  - apply preserves_get_from_pip. now apply not_eq_sym.
  - apply frames_get_from_image.
  - apply preserves_get_from_image. now apply not_eq_sym.
  - apply frames_get_from_cmd.
  - apply preserves_get_from_cmd. now apply not_eq_sym.
  - apply frames_insert_snippet.
  - apply preserves_insert_snippet. now apply not_eq_sym.
Qed.

Lemma lstrip_all_whitespace (s : string) :
  all_whitespace s = true -> lstrip s = "".
Proof.
  induction s as [|a s IH]; simpl; [reflexivity |].
  destruct (is_whitespace a); simpl; [exact IH | discriminate].
Qed.

Lemma strip_all_whitespace (s : string) :
  all_whitespace s = true -> strip s = "".
Proof. intros H. unfold strip. now rewrite (lstrip_all_whitespace s H). Qed.

(** X4. An output that holds nothing but double quotes and whitespace,
    and is not a run of whitespace alone (the empty output, or a
    variable whose value is a pair of quotes), is a success for the two
    environment extractors: they store the empty text, not the sentinel,
    and log nothing. *)
Theorem quotes_and_blanks_store_empty_text
  (path lookup : string) (key : option string) :
  let k := default lookup key in
  (forall err result,
      exec_run c (env_command lookup) = (err, result) ->
      err <> 1 -> isspace result = false ->
      all_whitespace (remove_char dquote result) = true ->
      get_from_env lookup key x0 w
      = Ok (set_key k (VStr "") (set_key k ERROR x0)) w)
  /\ (forall err result,
      exec_run c (envfile_command path lookup) = (err, result) ->
      err <> 1 -> isspace result = false ->
      all_whitespace (remove_char dquote result) = true ->
      get_from_envfile path lookup key x0 w
      = Ok (set_key k (VStr "") (set_key k ERROR x0)) w).
Proof.
  intros k. split; intros err result Hexec Herr Hsp Hall.
  - unfold x0. rewrite get_from_env_eq, Hexec. cbv zeta. fold k.
    apply Z.eqb_neq in Herr. rewrite Herr, Hsp. simpl.
    now rewrite (strip_all_whitespace _ Hall).
  - unfold x0. rewrite get_from_envfile_eq, Hexec. cbv zeta. fold k.
    apply Z.eqb_neq in Herr. rewrite Herr, Hsp. simpl.
    now rewrite (strip_all_whitespace _ Hall).
Qed.







(** X6. After [get_from_pip] the sentinel under the key means failure
    and nothing else: the key holds the sentinel exactly when the query
    ended with a non-zero status or the output had not exactly one
    version line; a found version is a token without whitespace, which
    the sentinel is not. *)
Theorem pip_sentinel_marks_failure
  (lookup : string) (key : option string) (err : Z) (output : string) :
  let k := default lookup key in
  exec_run c (pip_command lookup) = (err, output) ->
  exists x' w',
    get_from_pip lookup key x0 w = Ok x' w'
    /\ (contdata x' !! k = Some ERROR
        <-> err <> 0 \/ length (version_lines output) <> 1%nat).
Proof.
  intros k Hexec.
  pose proof (get_from_pip_eq c x w lookup key) as E. cbv zeta in E.
  fold x0 k in E. rewrite Hexec in E.
  destruct (Z.eqb_spec err 0) as [-> | Herr]; simpl in E.
  - destruct (version_tokens_defined output) as (toks & Htoks & Hlen).
    rewrite Htoks in E.
    destruct toks as [|t [|t' toks]].
    + do 2 eexists. split; [exact E |]. simpl. rewrite lookup_insert_eq.
      split; [intros _; right | reflexivity]. now rewrite <- Hlen.
    + do 2 eexists. split; [exact E |]. simpl. rewrite lookup_insert_eq.
      destruct (version_lines output) as [|line [|line' lines]] eqn:Hl;
        try discriminate Hlen.
      simpl in Htoks.
      destruct (last_item (split line)) as [tok|] eqn:Htok; [| discriminate].
      simpl in Htoks. injection Htoks as <-.
      destruct (split_last_token _ _ Htok) as (_ & _ & _ & _ & Hnw & _).
      rewrite (strip_no_whitespace _ Hnw).
      split.
      * intros [= Heq]. rewrite Heq in Hnw. discriminate Hnw.
      * intros [H | H]; [now destruct H | now destruct H].
    + do 2 eexists. split; [exact E |]. simpl. rewrite lookup_insert_eq.
      split; [intros _; right | reflexivity]. rewrite <- Hlen. discriminate.
  - do 2 eexists. split; [exact E |]. simpl. rewrite lookup_insert_eq.
    split; [intros _; now left | reflexivity].
Qed.

End ExtractorEdges.

(** ** More on the container session *)

Section SessionExits.

Variables (closes : bool) (img : string)
  (body : yielded -> World -> completion * World) (w : World).

Variables (exec : string -> Z * string) (attrs : gmap string pyval).

Hypothesis image_present : images (docker w) img = ImagePresent exec attrs.

Let c : Container :=
  {| cid := next_cid (docker w); exec_run := exec; image_attrs := attrs |}.

Let w1 : World := set_docker (snd (containers_run img (docker w))) w.

(** X7. When the body of the scope ends without an exception, by
    falling through or by [continue], the [finally] clause has run when
    the scope is left: the container that was started is stopped and
    removed, no other container is touched, and files and log are as
    the body left them. *)
Theorem scope_completion_removes_container (k : completion) (w2 : World) :
  body (YContainer c) w1 = (k, w2) ->
  (forall e, k <> Raise e) ->
  exists w3,
    with_managed_container closes img body w = (k, w3)
    /\ containers (docker w3) !! cid c = None
    /\ (forall i, i <> cid c ->
                  containers (docker w3) !! i = containers (docker w2) !! i)
    /\ fs w3 = fs w2 /\ log w3 = log w2.
Proof.
  intros Hbody Hk.
  destruct (session_cleans_up_on_completion closes img body w exec attrs
              image_present k w2 Hbody Hk) as [Hrun Hgone].
  exists (finally_clause (Some c) w2). split; [exact Hrun |].
  split; [exact Hgone |]. split; [| split; reflexivity].
  intros i Hi. simpl. rewrite lookup_delete_ne by (now apply not_eq_sym).
  rewrite lookup_alter_ne by (now apply not_eq_sym). reflexivity.
Qed.

(** X8. Under a [contextlib] that closes a generator that yields twice,
    an exception of the extraction code still leaves the scope as a
    [RuntimeError] in place of the exception raised, but the [finally]
    clause has run: the container is stopped and removed, files and log
    are as the body left them. *)
Theorem closing_contextlib_runs_finally (e : exn) (w2 : World) :
  closes = true ->
  body (YContainer c) w1 = (Raise e, w2) ->
  is_Exception e = true ->
  exists w3,
    with_managed_container closes img body w
    = (Raise (RuntimeError "generator didn't stop after throw()"), w3)
    /\ containers (docker w3) !! cid c = None
    /\ fs w3 = fs w2 /\ log w3 = log w2.
Proof.
  intros Hc Hbody He. exists (finally_clause (Some c) w2).
  rewrite (session_on_exception closes img body w exec attrs image_present
             e w2 Hbody He), Hc.
  split; [reflexivity |]. split; [apply lookup_delete_eq |].
  split; reflexivity.
Qed.

(** X9. An exception that is not an [Exception] (an interrupt from the
    keyboard) passes both [except] clauses: the [finally] clause stops
    and removes the container and the exception leaves the scope as
    itself, under either [contextlib]. *)
Theorem interrupt_in_scope_cleans_up (e : exn) (w2 : World) :
  body (YContainer c) w1 = (Raise e, w2) ->
  is_Exception e = false ->
  exists w3,
    with_managed_container closes img body w = (Raise e, w3)
    /\ containers (docker w3) !! cid c = None
    /\ fs w3 = fs w2 /\ log w3 = log w2.
Proof.
  intros Hbody He. exists (finally_clause (Some c) w2).
  unfold with_managed_container. unfold c, w1 in Hbody.
  rewrite (session_starts img w exec attrs image_present), Hbody.
  unfold cm_exit, gen_throw, try_raises. rewrite He.
  assert (Hnf : is_ImageNotFound e = false) by (now destruct e).
  rewrite Hnf. simpl.
  split; [reflexivity |]. split; [apply lookup_delete_eq |].
  split; reflexivity.
Qed.

End SessionExits.

(** ** More on the driver *)

Section MainLoop.

Variables (env : Env) (args : Args) (sniptext : record) (ver jsonfile : string).

(** One turn of the loop on an image that cannot be started. *)
Lemma unavailable_image_step (cont : string) (w : World) :
  (forall exec attrs,
      images (docker w) (image_reference cont ver) <> ImagePresent exec attrs) ->
  with_managed_container (closes_generator env) (image_reference cont ver)
    (with_body args sniptext cont ver jsonfile) w
  = (Continue, info "...image is not found." w).
Proof.
  intros Hno. unfold with_managed_container, gen_next, containers_run.
  destruct (images (docker w) (image_reference cont ver)) as [exec attrs| |];
    [now destruct (Hno exec attrs) | reflexivity | reflexivity].
Qed.

(** X10. A failure to start the container that is not a missing image
    (the daemon answers with an error) is taken for a missing image:
    the same line is logged, nothing is written, no container exists,
    and the loop goes on with the next container. *)
Theorem daemon_error_is_skipped (cont : string) (rest : list string) (w : World) :
  images (docker w) (image_reference cont ver) = DaemonError ->
  let w' := info "...image is not found."
              (info ("Extracting information from: "
                     +:+ image_reference cont ver) w) in
  fs w' = fs w
  /\ docker w' = docker w
  /\ main_loop env args sniptext ver jsonfile (cont :: rest) w
     = main_loop env args sniptext ver jsonfile rest w'.
Proof.
  intros Himg w'. split; [reflexivity |]. split; [reflexivity |].
  simpl. rewrite unavailable_image_step; [reflexivity |].
  intros exec attrs. simpl. now rewrite Himg.
Qed.




End MainLoop.

Section MainStart.

Variables (env : Env) (args : Args) (w : World).


End MainStart.

Section ContainerTurn.

Variables (env : Env) (args : Args) (sniptext : record) (ver jsonfile : string).

Variables (cont : string) (w : World).

Variables (exec : string -> Z * string) (attrs : gmap string pyval).

Hypothesis image_present :
  images (docker w) (image_reference cont ver) = ImagePresent exec attrs.

Let c : Container :=
  {| cid := next_cid (docker w); exec_run := exec; image_attrs := attrs |}.

(** The world in which the extractor of this turn starts. *)
Let w1 : World :=
  info "...container is running."
    (set_docker (snd (containers_run (image_reference cont ver) (docker w)))
       (info ("Extracting information from: " +:+ image_reference cont ver) w)).

Let xtr : SupportMatrixExtractor :=
  use_container c (init (ngc_base +:+ cont) ver jsonfile).

Lemma turn_image_present :
  images (docker (info ("Extracting information from: "
                        +:+ image_reference cont ver) w))
    (image_reference cont ver) = ImagePresent exec attrs.
Proof. exact image_present. Qed.

(** What the entries of a store become when one record is put in it. *)
Lemma store_put_entries (name rel : string) (r : record) (D : store) :
  let S := <[name := <[rel := r]> (default ∅ (D !! name))]> D in
  entry_at S name rel = Some r
  /\ forall name' rel', (name', rel') <> (name, rel) ->
                        entry_at S name' rel' = entry_at D name' rel'.
Proof.
  intros S. unfold S, entry_at. split.
  - rewrite lookup_insert_eq. simpl. apply lookup_insert_eq.
  - intros name' rel' Hne. rewrite lookup_insert. case_decide.
    + subst name'. simpl. rewrite lookup_insert_ne by congruence.
      now destruct (D !! name).
    + reflexivity.
Qed.

Lemma turn_body_returns (x' : SupportMatrixExtractor) (w2 : World) :
  extract_container args sniptext cont xtr w1 = Ok x' w2 ->
  with_body args sniptext cont ver jsonfile (YContainer c)
    (set_docker (snd (containers_run (image_reference cont ver) (docker w)))
       (info ("Extracting information from: " +:+ image_reference cont ver) w))
  = (Normal, w2).
Proof. intros Hx. unfold with_body. fold w1 xtr. now rewrite Hx. Qed.

Lemma container_turn_step
  (rest : list string) (x' : SupportMatrixExtractor) (w2 : World) :
  extract_container args sniptext cont xtr w1 = Ok x' w2 ->
  main_loop env args sniptext ver jsonfile (cont :: rest) w
  = main_loop env args sniptext ver jsonfile rest
      (finally_clause (Some c) w2).
Proof.
  intros Hx.
  destruct (session_cleans_up_on_completion (closes_generator env)
              (image_reference cont ver)
              (with_body args sniptext cont ver jsonfile)
              (info ("Extracting information from: "
                     +:+ image_reference cont ver) w)
              exec attrs turn_image_present Normal w2
              (turn_body_returns x' w2 Hx)
              ltac:(discriminate)) as [Hrun _].
  simpl. now rewrite Hrun.
Qed.

(** X13. A turn of the loop whose extraction returns: when the scope is
    left the file holds the record under the registry path of the
    container and the release of the run, every other entry of the
    store and every other file is as before, the container is removed,
    and the loop goes on with the next container. *)
Theorem container_turn_saves_and_cleans_up
  (rest : list string) (x' : SupportMatrixExtractor) (w2 : World) :
  extract_container args sniptext cont xtr w1 = Ok x' w2 ->
  exists w3,
    main_loop env args sniptext ver jsonfile (cont :: rest) w
    = main_loop env args sniptext ver jsonfile rest w3
    /\ (fs w3 !! jsonfile ≫= fun s => entry_at s (ngc_base +:+ cont) ver)
       = Some (contdata x')
    /\ (forall name' rel',
           (name', rel') <> (ngc_base +:+ cont, ver) ->
           (fs w3 !! jsonfile ≫= fun s => entry_at s name' rel')
           = entry_at (default ∅ (fs w !! jsonfile)) name' rel')
    /\ (forall f, f <> jsonfile -> fs w3 !! f = fs w !! f)
    /\ containers (docker w3) !! cid c = None
    /\ images (docker w3) = images (docker w).
Proof.
  intros Hx.
  destruct (extract_container_outcome _ _ _ _ _ _ _ _ _ _ Hx)
    as (_ & Hfs & Hd).
  exists (finally_clause (Some c) w2).
  split; [now apply container_turn_step with x' |].
  change (fs (finally_clause (Some c) w2)) with (fs w2).
  rewrite Hfs. change (fs w1) with (fs w).
  destruct (store_put_entries (ngc_base +:+ cont) ver (contdata x')
              (default ∅ (fs w !! jsonfile))) as [Hown Hothers].
  split; [now rewrite lookup_insert_eq |].
  split; [intros name' rel' Hne; rewrite lookup_insert_eq; now apply Hothers |].
  split; [intros f Hf; now rewrite lookup_insert_ne by (now apply not_eq_sym) |].
  split; [apply lookup_delete_eq |].
  simpl. rewrite Hd. unfold w1, containers_run. simpl.
  now rewrite image_present.
Qed.

(** X14. A turn of the loop whose extraction raises an [Exception]
    ends the whole run with the [RuntimeError] of the scope: the
    containers that follow in the list are not looked at. *)
Theorem raising_turn_ends_the_run
  (rest : list string) (e : exn) (w2 : World) :
  extract_container args sniptext cont xtr w1 = Raised e w2 ->
  is_Exception e = true ->
  main_loop env args sniptext ver jsonfile (cont :: rest) w
  = (Some (RuntimeError "generator didn't stop after throw()"),
     if closes_generator env then finally_clause (Some c) w2 else w2).
Proof.
  intros Hx He.
  assert (Hbody : with_body args sniptext cont ver jsonfile (YContainer c)
                    (set_docker
                       (snd (containers_run (image_reference cont ver)
                               (docker w)))
                       (info ("Extracting information from: "
                              +:+ image_reference cont ver) w))
                  = (Raise e, w2)).
  { unfold with_body. fold w1 xtr. now rewrite Hx. }
  simpl.
  now rewrite (session_on_exception (closes_generator env)
                 (image_reference cont ver)
                 (with_body args sniptext cont ver jsonfile)
                 (info ("Extracting information from: "
                        +:+ image_reference cont ver) w)
                 exec attrs turn_image_present e w2 Hbody He).
Qed.

End ContainerTurn.

Section Returns.

Import PyStr.

Variable c : Container.

(** A method that returns on every object to which [c] is attached, and
    leaves it attached. *)
Let returns (m : method) : Prop :=
  forall x w, container x = Some c ->
              exists x' w', m x w = Ok x' w' /\ container x' = Some c.

Ltac returns_now := do 2 eexists; split; [reflexivity | assumption].






Lemma returns_insert_snippet (key : string) (v : pyval) :
  returns (insert_snippet key v).
Proof. intros x w Hc. unfold insert_snippet. returns_now. Qed.




(** With its four inputs in the record the rule returns a text. *)
Lemma base_container_rule_returns (cont : string)
  (x : SupportMatrixExtractor) (w : World) :
  (forall k, k ∈ ["nvidia_tensorflow"; "nvidia_pytorch"; "base_container";
                  "python_major"] ->
             exists s, contdata x !! k = Some (VStr s)) ->
  exists s, base_container_rule cont x w
            = Ok (set_key "base_container" (VStr s) x) w.
Proof.
  intros Hin.
  destruct (Hin "nvidia_tensorflow" ltac:(repeat first [apply list_elem_of_here | apply list_elem_of_further])) as [tf Htf].
  destruct (Hin "nvidia_pytorch" ltac:(repeat first [apply list_elem_of_here | apply list_elem_of_further])) as [pt Hpt].
  destruct (Hin "base_container" ltac:(repeat first [apply list_elem_of_here | apply list_elem_of_further])) as [bc Hbc].
  destruct (Hin "python_major" ltac:(repeat first [apply list_elem_of_here | apply list_elem_of_further])) as [py Hpy].
  unfold base_container_rule, read_key, insert_snippet.
  destruct (String.eqb cont "merlin-training"); [eauto |].
  destruct (String.eqb cont "merlin-tensorflow-training");
    [rewrite Htf, Hpy; eauto |].
  destruct (String.eqb cont "merlin-pytorch-training");
    [rewrite Hpt, Hpy; eauto |].
  rewrite Hbc. eauto.
Qed.


End Returns.

Section WholeRun.

Variables (env : Env) (args : Args).



End WholeRun.

Section Untouched.

(** A method that, returning or raising, leaves files, snippet files
    and the daemon as they are, and the path of the data file when it
    returns. *)
Let quiet (m : method) : Prop :=
  forall x w,
    fs (world_of (m x w)) = fs w
    /\ yaml_files (world_of (m x w)) = yaml_files w
    /\ docker (world_of (m x w)) = docker w
    /\ forall x' w', m x w = Ok x' w' -> datafile x' = datafile x.

Ltac quiet_method :=
  intros x w;
  unfold get_from_env, get_from_envfile, get_from_pip, get_from_image,
    get_from_cmd, base_container_rule, read_key, insert_standard_snippet,
    insert_snippet, log_contdata, from_json, with_exec;
  simpl;
  repeat match goal with
         | |- context [match ?e with _ => _ end] =>
             let E := fresh "E" in destruct e eqn:E; simpl
         | H : context [match ?e with _ => _ end] |- _ =>
             let E := fresh "E" in destruct e eqn:E; simpl in H
         end;
  simplify_eq; repeat split; intros; simplify_eq; reflexivity.

Lemma quiet_get_from_env (lookup : string) (key : option string) :
  quiet (get_from_env lookup key).
Proof. quiet_method. Qed.

Lemma quiet_get_from_envfile (path lookup : string) (key : option string) :
  quiet (get_from_envfile path lookup key).
Proof. quiet_method. Qed.

Lemma quiet_get_from_pip (lookup : string) (key : option string) :
  quiet (get_from_pip lookup key).
Proof. quiet_method. Qed.

Lemma quiet_get_from_image (lookup : string) (key : option string) :
  quiet (get_from_image lookup key).
Proof. quiet_method. Qed.

Lemma quiet_get_from_cmd (cmd key : string) : quiet (get_from_cmd cmd key).
Proof. quiet_method. Qed.

Lemma quiet_insert_snippet (key : string) (v : pyval) :
  quiet (insert_snippet key v).
Proof. quiet_method. Qed.

Lemma quiet_insert_standard_snippet (sniptext : record) (key : string) :
  quiet (insert_standard_snippet sniptext key).
Proof. quiet_method. Qed.

Lemma quiet_base_container_rule (cont : string) :
  quiet (base_container_rule cont).
Proof. quiet_method. Qed.

Lemma quiet_from_json : quiet from_json.
Proof. quiet_method. Qed.

Lemma quiet_run_all (ms : list method) : Forall quiet ms -> quiet (run_all ms).
Proof.
  induction 1 as [|m ms Hm _ IH]; intros x w; simpl.
  - unfold ret. simpl. split; [reflexivity |]. split; [reflexivity |].
    split; [reflexivity |]. now intros x' w' [= <- <-].
  - unfold and_then. destruct (Hm x w) as (Hfs & Hy & Hd & Hfile).
    destruct (m x w) as [x1 w1|e w1] eqn:E; simpl in *.
    + destruct (IH x1 w1) as (Hfs' & Hy' & Hd' & Hfile').
      split; [congruence |]. split; [congruence |]. split; [congruence |].
      intros x' w' H'. rewrite (Hfile' _ _ H'). now apply (Hfile x1 w1).
    + split; [assumption |]. split; [assumption |]. split; [assumption |].
      discriminate.
Qed.

Lemma same_but_file_refl (f : string) (w : World) : same_but_file f w w.
Proof. unfold same_but_file. auto. Qed.

Lemma same_but_file_trans (f : string) (w1 w2 w3 : World) :
  same_but_file f w1 w2 -> same_but_file f w2 w3 -> same_but_file f w1 w3.
Proof.
  intros (Hfs & Hy & Hi) (Hfs' & Hy' & Hi'). unfold same_but_file.
  repeat split; try congruence.
  intros g Hg. rewrite (Hfs' g Hg). now apply Hfs.
Qed.

Lemma extract_container_world (args : Args) (sniptext : record)
  (cont : string) (x : SupportMatrixExtractor) (w : World) :
  same_but_file (datafile x) w
    (world_of (extract_container args sniptext cont x w)).
Proof.
  change (extract_container args sniptext cont x w)
    with (run_all
            (([from_json]
                ++ map (insert_standard_snippet sniptext) standard_snippets
                ++ [insert_snippet "release" (arg_value (version args))]
                ++ extractions ++ [base_container_rule cont])
               ++ [to_json_file; log_contdata]) x w).
  rewrite run_all_app.
  match goal with
  | |- context [run_all ?ms x w] =>
      assert (Hq : quiet (run_all ms))
  end.
  { apply quiet_run_all. unfold extractions. simpl.
    repeat (constructor;
            [first [apply quiet_from_json
                   | apply quiet_insert_standard_snippet
                   | apply quiet_insert_snippet
                   | apply quiet_get_from_env | apply quiet_get_from_envfile
                   | apply quiet_get_from_pip | apply quiet_get_from_image
                   | apply quiet_get_from_cmd
                   | apply quiet_base_container_rule] |]).
    constructor. }
  destruct (Hq x w) as (Hfs & Hy & Hd & Hfile).
  match goal with
  | |- context [match ?o with _ => _ end] =>
      destruct o as [x5 w5|e w5] eqn:E
  end; simpl in *.
  - unfold same_but_file. simpl. rewrite (Hfile x5 w5 eq_refl).
    split; [| split; congruence].
    intros g Hg. rewrite lookup_insert_ne by (now apply not_eq_sym).
    now rewrite Hfs.
  - unfold same_but_file. rewrite Hfs, Hy, Hd. auto.
Qed.

Lemma scope_keeps (f : string) (closes : bool) (img : string)
  (body : yielded -> World -> completion * World) (w : World) :
  (forall v w1, same_but_file f w1 (snd (body v w1))) ->
  same_but_file f w (snd (with_managed_container closes img body w)).
Proof.
  intros Hbody. unfold with_managed_container, gen_next, containers_run.
  destruct (images (docker w) img) as [exec attrs| |]; simpl.
  - match goal with
    | |- context [body ?v ?w1] =>
        pose proof (Hbody v w1) as H; destruct (body v w1) as [k w2]
    end.
    simpl in H.
    apply same_but_file_trans with w2.
    + destruct H as (Hfs & Hy & Hi). unfold same_but_file. auto.
    + destruct k as [| |e]; simpl; try apply same_but_file_refl.
      * unfold same_but_file. simpl. auto.
      * unfold same_but_file. simpl. auto.
      * unfold try_raises.
        destruct (is_ImageNotFound e || is_Exception e); simpl;
          [destruct closes |]; unfold same_but_file; simpl; auto.
  - match goal with
    | |- context [body ?v ?w1] =>
        pose proof (Hbody v w1) as H; destruct (body v w1) as [k w2]
    end.
    simpl in H.
    apply same_but_file_trans with w2.
    + destruct H as (Hfs & Hy & Hi). unfold same_but_file. auto.
    + destruct k as [| |e]; simpl; try apply same_but_file_refl.
  - match goal with
    | |- context [body ?v ?w1] =>
        pose proof (Hbody v w1) as H; destruct (body v w1) as [k w2]
    end.
    simpl in H.
    apply same_but_file_trans with w2.
    + destruct H as (Hfs & Hy & Hi). unfold same_but_file. auto.
    + destruct k as [| |e]; simpl; try apply same_but_file_refl.
Qed.

Lemma with_body_keeps (args : Args) (sniptext : record)
  (cont ver jsonfile : string) (v : yielded) (w : World) :
  same_but_file jsonfile w
    (snd (with_body args sniptext cont ver jsonfile v w)).
Proof.
  unfold with_body.
  destruct v as [c|e]; [| unfold same_but_file; simpl; auto].
  match goal with
  | |- context [extract_container ?a ?s ?c ?x ?w0] =>
      pose proof (extract_container_world a s c x w0) as H;
      destruct (extract_container a s c x w0)
  end; exact H.
Qed.

Lemma main_loop_keeps (env : Env) (args : Args) (sniptext : record)
  (ver jsonfile : string) (conts : list string) (w : World) :
  same_but_file jsonfile w
    (snd (main_loop env args sniptext ver jsonfile conts w)).
Proof.
  revert w. induction conts as [|cont rest IH]; intros w; simpl.
  - apply same_but_file_refl.
  - match goal with
    | |- context [with_managed_container ?c ?i ?b ?w0] =>
        pose proof (scope_keeps jsonfile c i b w0
                      (with_body_keeps args sniptext cont ver jsonfile)) as H;
        destruct (with_managed_container c i b w0) as [k w1]
    end.
    simpl in H.
    assert (H0 : same_but_file jsonfile w w1).
    { destruct H as (Hfs & Hy & Hi). unfold same_but_file. auto. }
    destruct k as [| |e]; simpl; [| | exact H0];
      apply same_but_file_trans with w1; auto.
Qed.

(** X16. Whatever happens in a run (images missing, extractions
    returning or raising, the run ending in an exception) [main] writes
    no file but the data store, changes no snippet file and no image of
    the daemon. *)
Theorem main_writes_only_the_data_store (env : Env) (args : Args) (w : World) :
  same_but_file (run_jsonfile env args) w (snd (main env args w)).
Proof.
  unfold main.
  destruct (yaml_files w !! run_snippetsfile env args) as [snips|];
    [| apply same_but_file_refl].
  destruct (check_snippets snips standard_snippets);
    [apply same_but_file_refl | apply main_loop_keeps].
Qed.

End Untouched.


(** ** More on the data store *)

Section StoreCycles.

Lemma save_cycle_file (name rel file : string) (r : record) (w : World) :
  fs (save_cycle name rel file r w)
  = <[file := <[name := <[rel := r]>
                          (default ∅ (default ∅ (fs w !! file) !! name))]>
                (default ∅ (fs w !! file))]> (fs w)
  /\ docker (save_cycle name rel file r w) = docker w
  /\ log (save_cycle name rel file r w) = log w.
Proof.
  unfold save_cycle. simpl. unfold and_then.
  destruct (from_json_store (set_contdata r (init name rel file)) w eq_refl)
    as (d & Hload & Hres).
  rewrite Hload. unfold to_json_file, ret. simpl.
  specialize (Hres r). simpl in Hres.
  change (set_data d (set_contdata r (init name rel file)))
    with (set_contdata r (set_data d (set_contdata r (init name rel file)))).
  now rewrite Hres.
Qed.

Lemma store_put_commute (n1 r1 n2 r2 : string) (a b : record) (D : store) :
  (n1, r1) <> (n2, r2) ->
  <[n2 := <[r2 := b]>
            (default ∅ (<[n1 := <[r1 := a]> (default ∅ (D !! n1))]> D !! n2))]>
    (<[n1 := <[r1 := a]> (default ∅ (D !! n1))]> D)
  = <[n1 := <[r1 := a]>
              (default ∅ (<[n2 := <[r2 := b]> (default ∅ (D !! n2))]> D !! n1))]>
      (<[n2 := <[r2 := b]> (default ∅ (D !! n2))]> D).
Proof.
  intros Hne. destruct (decide (n1 = n2)) as [-> | Hn].
  - assert (Hr : r1 <> r2) by congruence.
    rewrite !lookup_insert_eq. simpl. rewrite !insert_insert_eq.
    f_equal. now apply insert_insert_ne.
  - rewrite lookup_insert_ne by assumption.
    rewrite (lookup_insert_ne _ n2 n1) by (now apply not_eq_sym).
    now apply insert_insert_ne.
Qed.

(** X17. Two cycles of the store for different pairs of name and
    release leave the same file in either order, and that file holds
    both records: neither overwrites the other. *)
Theorem save_cycles_commute
  (n1 r1 n2 r2 file : string) (a b : record) (w : World) :
  (n1, r1) <> (n2, r2) ->
  let w12 := save_cycle n2 r2 file b (save_cycle n1 r1 file a w) in
  let w21 := save_cycle n1 r1 file a (save_cycle n2 r2 file b w) in
  fs w12 = fs w21
  /\ (fs w12 !! file ≫= fun s => entry_at s n1 r1) = Some a
  /\ (fs w12 !! file ≫= fun s => entry_at s n2 r2) = Some b.
Proof.
  intros Hne w12 w21. unfold w12, w21.
  destruct (save_cycle_file n1 r1 file a w) as (H1 & _ & _).
  destruct (save_cycle_file n2 r2 file b w) as (H2 & _ & _).
  destruct (save_cycle_file n2 r2 file b (save_cycle n1 r1 file a w))
    as (H12 & _ & _).
  destruct (save_cycle_file n1 r1 file a (save_cycle n2 r2 file b w))
    as (H21 & _ & _).
  rewrite H12, H21, H1, H2. rewrite !lookup_insert_eq. simpl.
  rewrite !insert_insert_eq.
  rewrite (store_put_commute n1 r1 n2 r2 a b _ Hne).
  split; [reflexivity |].
  set (D := default ∅ (fs w !! file)).
  split.
  - apply (store_put_entries n1 r1 a
             (<[n2 := <[r2 := b]> (default ∅ (D !! n2))]> D)).
  - rewrite <- (store_put_commute n1 r1 n2 r2 a b D Hne).
    apply (store_put_entries n2 r2 b
             (<[n1 := <[r1 := a]> (default ∅ (D !! n1))]> D)).
Qed.

(** X18. Two cycles of the store for the same name and release: the
    second record replaces the first whole, and the file is the one a
    single cycle with the second record leaves. *)
Theorem last_save_wins (name rel file : string) (a b : record) (w : World) :
  fs (save_cycle name rel file b (save_cycle name rel file a w))
  = fs (save_cycle name rel file b w)
  /\ (fs (save_cycle name rel file b (save_cycle name rel file a w)) !! file
        ≫= fun s => entry_at s name rel) = Some b.
Proof.
  destruct (save_cycle_file name rel file a w) as (H1 & _ & _).
  destruct (save_cycle_file name rel file b w) as (H2 & _ & _).
  destruct (save_cycle_file name rel file b (save_cycle name rel file a w))
    as (H12 & _ & _).
  rewrite H12, H2, H1. rewrite !lookup_insert_eq. simpl.
  rewrite !lookup_insert_eq. simpl. rewrite !insert_insert_eq.
  split; [reflexivity |].
  apply (store_put_entries name rel b (default ∅ (fs w !! file))).
Qed.

(** X19. Saving without loading first: on an extractor as the
    constructor leaves it, with or without a container attached,
    whatever calls that leave the store data alone ran in between,
    [to_json_file] makes the file hold the current record and nothing
    else; the entries the file held before are gone. *)
Theorem save_without_load_overwrites
  (x : SupportMatrixExtractor) (ms : list method) (w : World)
  (x' : SupportMatrixExtractor) (w' : World) :
  data x = {[ container_name x := {[ release x := Shared ]} ]} ->
  Forall frames ms ->
  run_all (ms ++ [to_json_file]) x w = Ok x' w' ->
  fs w' !! datafile x
  = Some {[ container_name x := {[ release x := contdata x' ]} ]}
  /\ forall name' rel',
       (name', rel') <> (container_name x, release x) ->
       (fs w' !! datafile x ≫= fun s => entry_at s name' rel') = None.
Proof.
  intros Hdata Hms H. rewrite run_all_app in H.
  destruct (run_all ms x w) as [x1 w1|] eqn:E; [| discriminate].
  apply (frames_run_all ms Hms) in E as (Hx1 & _).
  simpl in H. unfold and_then, to_json_file, ret in H.
  injection H as <- <-. simpl.
  assert (Hres : resolve x1
                 = {[ container_name x := {[ release x := contdata x1 ]} ]}).
  { rewrite Hx1. unfold resolve. simpl. rewrite Hdata, map_fmap_singleton.
    f_equal. now rewrite map_fmap_singleton. }
  assert (Hfile : datafile x1 = datafile x) by (now rewrite Hx1).
  rewrite Hfile, lookup_insert_eq, Hres. split; [reflexivity |].
  intros name' rel' Hne. simpl. unfold entry_at.
  destruct (decide (name' = container_name x)) as [-> | Hn].
  - rewrite lookup_singleton_eq. simpl.
    apply lookup_singleton_ne. congruence.
  - now rewrite lookup_singleton_ne by (now apply not_eq_sym).
Qed.

End StoreCycles.

(** ** The release of a run *)

Section Release.

Lemma digit_inj (a b : Z) :
  0 <= a < 10 -> 0 <= b < 10 -> digit a = digit b -> a = b.
Proof.
  intros Ha Hb H. unfold digit in H.
  apply (f_equal nat_of_ascii) in H.
  rewrite !nat_ascii_embedding in H by lia. lia.
Qed.

Lemma two_digits_inj (n m : Z) :
  0 <= n < 100 -> 0 <= m < 100 -> two_digits n = two_digits m -> n = m.
Proof.
  intros Hn Hm H. unfold two_digits in H. injection H as H1 H2.
  pose proof (Z.div_mod n 10 ltac:(lia)).
  pose proof (Z.div_mod m 10 ltac:(lia)).
  pose proof (Z.mod_pos_bound n 10 ltac:(lia)).
  pose proof (Z.mod_pos_bound m 10 ltac:(lia)).
  assert (n / 10 = m / 10).
  { apply digit_inj; [| | assumption].
    - split; [apply Z.div_pos; lia | apply Z.div_lt_upper_bound; lia].
    - split; [apply Z.div_pos; lia | apply Z.div_lt_upper_bound; lia]. }
  assert (n mod 10 = m mod 10).
  { apply digit_inj; assumption. }
  lia.
Qed.

(** X20. On a day of a month between 1 and 12 [get_yymm] gives five
    characters, two digits, a dot and two digits; two days give the same
    release exactly when they agree on the month and on the year within
    its century. *)
Theorem get_yymm_identifies_the_month (d1 d2 : date) :
  1 <= month d1 <= 12 -> 1 <= month d2 <= 12 ->
  String.length (get_yymm_on d1) = 5%nat
  /\ String.get 2 (get_yymm_on d1) = Some "."%char
  /\ (get_yymm_on d1 = get_yymm_on d2
      <-> year d1 mod 100 = year d2 mod 100 /\ month d1 = month d2).
Proof.
  intros Hm1 Hm2. split; [reflexivity |]. split; [reflexivity |].
  split.
  - unfold get_yymm_on. intros H.
    pose proof (Z.mod_pos_bound (year d1) 100 ltac:(lia)) as Hb1.
    pose proof (Z.mod_pos_bound (year d2) 100 ltac:(lia)) as Hb2.
    assert (Hy : two_digits (year d1 mod 100) = two_digits (year d2 mod 100)).
    { unfold two_digits in *. simpl in H. injection H as E1 E2 E3 E4.
      now rewrite E1, E2. }
    assert (Hm : two_digits (month d1) = two_digits (month d2)).
    { unfold two_digits in *. simpl in H. injection H as E1 E2 E3 E4.
      now rewrite E3, E4. }
    split; apply two_digits_inj; try assumption; lia.
  - intros [Hy Hm]. unfold get_yymm_on. now rewrite Hy, Hm.
Qed.

(** X21. With a version given on the command line, and not empty, the
    release of the run is that version, and the record that is saved
    under it holds the same text under the key release. *)
Theorem given_version_is_stored (env : Env) (args : Args)
  (sniptext : record) (cont name jsonfile v : string) (c : Container)
  (w : World) (x' : SupportMatrixExtractor) (w' : World) :
  version args = Some v -> v <> "" ->
  extract_container args sniptext cont
    (use_container c (init name (run_version env args) jsonfile)) w
  = Ok x' w' ->
  run_version env args = v
  /\ contdata x' !! "release" = Some (VStr v)
  /\ (fs w' !! jsonfile ≫= fun s => entry_at s name v) = Some (contdata x').
Proof.
  intros Hv Hne H.
  assert (Hrun : run_version env args = v).
  { unfold run_version, given. rewrite Hv. now destruct v. }
  rewrite Hrun in H.
  destruct (extract_container_outcome _ _ _ _ _ _ _ _ _ _ H) as (Hrel & Hfs & _).
  rewrite Hv in Hrel. split; [exact Hrun |]. split; [exact Hrel |].
  rewrite Hfs, lookup_insert_eq. simpl.
  apply (store_put_entries name v (contdata x')
           (default ∅ (fs w !! jsonfile))).
Qed.

(** X22. Once the extractor calls of [main] have returned, the rule for
    base_container returns too, for every container name: the keys it
    reads were all written, and what it stores is text. *)
Theorem base_container_rule_never_fails (cont : string)
  (x : SupportMatrixExtractor) (w : World)
  (x1 : SupportMatrixExtractor) (w1 : World) :
  run_all extractions x w = Ok x1 w1 ->
  exists s,
    base_container_rule cont x1 w1
    = Ok (set_key "base_container" (VStr s) x1) w1.
Proof.
  intros H. apply base_container_rule_returns.
  now apply (extractions_provide_rule_inputs x w x1 w1).
Qed.

End Release.

(** ** Instances on the samples *)



(** The [pip show] of the sample for a package that is not installed. *)
Lemma pip_sentinel_witness :
  exists x' w',
    get_from_pip "cudf" None (sample_extractor size_attrs) sample_world
    = Ok x' w'
    /\ contdata x' !! "cudf" = Some ERROR.
Proof.
  destruct (pip_sentinel_marks_failure (sample_container size_attrs)
              (init "nvcr.io/nvidia/merlin/merlin-training" "22.03"
                 "/docs/data.json")
              sample_world "cudf" None 1
              (snd (sample_exec (pip_command "cudf"))) eq_refl)
    as (x' & w' & Hget & Hiff).
  exists x', w'. split; [exact Hget |]. apply Hiff. left. lia.
Defined.

(** The first image of the sample: the body falls through. *)
Lemma scope_completion_witness :
  exists w3,
    with_managed_container false
      (image_reference "merlin-training" "22.03")
      (with_body no_args sample_snippets "merlin-training" "22.03"
         "/docs/data.json") sample_world
    = (Normal, w3)
    /\ containers (docker w3) !! 0%nat = None.
Proof.
  pose (body := with_body no_args sample_snippets "merlin-training" "22.03"
                  "/docs/data.json").
  pose (w1 := set_docker
                (snd (containers_run
                        (image_reference "merlin-training" "22.03")
                        (docker sample_world))) sample_world).
  assert (Hbody : body (YContainer (sample_container size_attrs)) w1
                  = (Normal,
                     snd (body (YContainer (sample_container size_attrs)) w1)))
    by (vm_compute; reflexivity).
  destruct (scope_completion_removes_container false
              (image_reference "merlin-training" "22.03") body
              sample_world sample_exec size_attrs eq_refl Normal _ Hbody
              ltac:(discriminate))
    as (w3 & Hrun & Hgone & _).
  exists w3. split; [exact Hrun | exact Hgone].
Defined.

(** The third image of the sample under a closing [contextlib]. *)
Lemma closing_contextlib_witness :
  exists w3,
    with_managed_container true
      (image_reference "merlin-pytorch-training" "22.03")
      (with_body no_args sample_snippets "merlin-pytorch-training" "22.03"
         "/docs/data.json") sample_world
    = (Raise (RuntimeError "generator didn't stop after throw()"), w3)
    /\ containers (docker w3) !! 0%nat = None.
Proof.
  pose (body := with_body no_args sample_snippets "merlin-pytorch-training"
                  "22.03" "/docs/data.json").
  pose (w1 := set_docker
                (snd (containers_run
                        (image_reference "merlin-pytorch-training" "22.03")
                        (docker sample_world))) sample_world).
  assert (Hbody : body (YContainer (sample_container ∅)) w1
                  = (Raise (KeyError "Size"),
                     snd (body (YContainer (sample_container ∅)) w1)))
    by (vm_compute; reflexivity).
  destruct (closing_contextlib_runs_finally true
              (image_reference "merlin-pytorch-training" "22.03") body
              sample_world sample_exec ∅ eq_refl (KeyError "Size") _
              eq_refl Hbody eq_refl)
    as (w3 & Hrun & Hgone & _).
  exists w3. split; [exact Hrun | exact Hgone].
Defined.

(** An interrupt while the first container of the sample runs. *)
Lemma interrupt_witness :
  exists w3,
    with_managed_container false
      (image_reference "merlin-training" "22.03") interrupted_body
      sample_world
    = (Raise KeyboardInterrupt, w3)
    /\ containers (docker w3) !! 0%nat = None.
Proof.
  edestruct (interrupt_in_scope_cleans_up false
               (image_reference "merlin-training" "22.03") interrupted_body
               sample_world sample_exec size_attrs eq_refl KeyboardInterrupt)
    as (w3 & Hrun & Hgone & _).
  - reflexivity.
  - reflexivity.
  - exists w3. split; [exact Hrun | exact Hgone].
Defined.

(** The daemon of the second sample fails on the inference image. *)
Lemma daemon_error_witness :
  main_loop (sample_env false) no_args sample_snippets "22.03"
    "/docs/data.json" ["merlin-inference"] sized_world
  = (None,
     info "...image is not found."
       (info ("Extracting information from: "
              +:+ image_reference "merlin-inference" "22.03") sized_world)).
Proof.
  destruct (daemon_error_is_skipped (sample_env false) no_args
              sample_snippets "22.03" "/docs/data.json" "merlin-inference" []
              sized_world eq_refl) as (_ & _ & H).
  exact H.
Defined.



(** The first turn of the loop on the sample. *)
Lemma container_turn_witness :
  exists w3,
    main_loop (sample_env false) no_args sample_snippets "22.03"
      "/docs/data.json" ["merlin-training"] sample_world
    = (None, w3)
    /\ (forall name' rel',
           (name', rel') <> (ngc_base +:+ "merlin-training", "22.03") ->
           (fs w3 !! "/docs/data.json" ≫= fun s => entry_at s name' rel')
           = entry_at sample_store name' rel')
    /\ containers (docker w3) !! 0%nat = None.
Proof.
  pose (o := extract_container no_args sample_snippets "merlin-training"
               (use_container (sample_container size_attrs)
                  (init (ngc_base +:+ "merlin-training") "22.03"
                     "/docs/data.json"))
               (info "...container is running."
                  (set_docker
                     (snd (containers_run
                             (image_reference "merlin-training" "22.03")
                             (docker sample_world)))
                     (info ("Extracting information from: "
                            +:+ image_reference "merlin-training" "22.03")
                        sample_world)))).
  assert (E : o = Ok (object_of o (sample_extractor ∅)) (world_of o))
    by (vm_compute; reflexivity).
  destruct (container_turn_saves_and_cleans_up (sample_env false) no_args
              sample_snippets "22.03" "/docs/data.json" "merlin-training"
              sample_world sample_exec size_attrs eq_refl [] _ _ E)
    as (w3 & Hrun & _ & Hothers & _ & Hgone & _).
  exists w3. split; [exact Hrun |]. split; [exact Hothers | exact Hgone].
Defined.

(** The third turn of the loop on the sample: the two containers that
    follow are not looked at. *)
Lemma raising_turn_witness :
  exists w3,
    main_loop (sample_env false) no_args sample_snippets "22.03"
      "/docs/data.json"
      ["merlin-pytorch-training"; "merlin-inference";
       "merlin-tensorflow-inference"] sample_world
    = (Some (RuntimeError "generator didn't stop after throw()"), w3).
Proof.
  pose (o := extract_container no_args sample_snippets
               "merlin-pytorch-training"
               (use_container (sample_container ∅)
                  (init (ngc_base +:+ "merlin-pytorch-training") "22.03"
                     "/docs/data.json"))
               (info "...container is running."
                  (set_docker
                     (snd (containers_run
                             (image_reference "merlin-pytorch-training"
                                "22.03")
                             (docker sample_world)))
                     (info ("Extracting information from: "
                            +:+ image_reference "merlin-pytorch-training"
                                  "22.03")
                        sample_world)))).
  assert (E : o = Raised (KeyError "Size") (world_of o))
    by (vm_compute; reflexivity).
  eexists.
  exact (raising_turn_ends_the_run (sample_env false) no_args
           sample_snippets "22.03" "/docs/data.json"
           "merlin-pytorch-training" sample_world sample_exec ∅ eq_refl
           ["merlin-inference"; "merlin-tensorflow-inference"]
           (KeyError "Size") _ E eq_refl).
Defined.



(** Two releases of one container, saved in either order. *)
Lemma save_cycles_witness :
  fs (save_cycle "merlin-training" "22.04" "/docs/data.json"
        {[ "cuda" := VStr "11.7" ]}
        (save_cycle "merlin-training" "22.03" "/docs/data.json"
           {[ "cuda" := VStr "11.6" ]} sample_world))
  = fs (save_cycle "merlin-training" "22.03" "/docs/data.json"
          {[ "cuda" := VStr "11.6" ]}
          (save_cycle "merlin-training" "22.04" "/docs/data.json"
             {[ "cuda" := VStr "11.7" ]} sample_world)).
Proof.
  destruct (save_cycles_commute "merlin-training" "22.03" "merlin-training"
              "22.04" "/docs/data.json" {[ "cuda" := VStr "11.6" ]}
              {[ "cuda" := VStr "11.7" ]} sample_world
              ltac:(discriminate)) as [H _].
  exact H.
Defined.

(** One extractor call, then a save, on the sample whose file holds a
    store. *)
Lemma save_without_load_witness :
  exists x' w',
    run_all ([get_from_env "CUDA_VERSION" (Some "cuda")] ++ [to_json_file])
      (sample_extractor size_attrs) sample_world
    = Ok x' w'
    /\ fs w' !! "/docs/data.json"
       = Some {[ "nvcr.io/nvidia/merlin/merlin-training" :=
                   {[ "22.03" := contdata x' ]} ]}.
Proof.
  do 2 eexists. split; [reflexivity |].
  refine (proj1 (save_without_load_overwrites (sample_extractor size_attrs)
                   [get_from_env "CUDA_VERSION" (Some "cuda")]
                   sample_world _ _ eq_refl _ eq_refl)).
  constructor; [apply frames_get_from_env | constructor].
Defined.

(** March 2022 and March 2122. *)
Lemma get_yymm_witness :
  get_yymm_on {| year := 2022; month := 3 |} = "22.03"
  /\ get_yymm_on {| year := 2022; month := 3 |}
     = get_yymm_on {| year := 2122; month := 3 |}.
Proof.
  split; [reflexivity |].
  apply (proj2 (proj2 (get_yymm_identifies_the_month
                         {| year := 2022; month := 3 |}
                         {| year := 2122; month := 3 |}
                         ltac:(simpl; lia) ltac:(simpl; lia)))).
  split; reflexivity.
Defined.

(** The first image of the sample, run with [-v 22.03]. *)
Lemma given_version_witness :
  exists x' w',
    extract_container versioned_args sample_snippets "merlin-training"
      (sample_extractor size_attrs) sample_world = Ok x' w'
    /\ contdata x' !! "release" = Some (VStr "22.03").
Proof.
  pose (o := extract_container versioned_args sample_snippets
               "merlin-training" (sample_extractor size_attrs) sample_world).
  assert (E : o = Ok (object_of o (sample_extractor ∅)) (world_of o))
    by (vm_compute; reflexivity).
  exists (object_of o (sample_extractor ∅)), (world_of o).
  split; [exact E |].
  destruct (given_version_is_stored (sample_env false) versioned_args
              sample_snippets "merlin-training"
              "nvcr.io/nvidia/merlin/merlin-training" "/docs/data.json"
              "22.03" (sample_container size_attrs) sample_world _ _
              eq_refl ltac:(discriminate) E) as (_ & Hrel & _).
  exact Hrel.
Defined.

(** The extractor calls on the first image of the sample, then the rule
    for a container name that has no case of its own. *)
Lemma base_container_rule_witness :
  exists x1 w1 s,
    run_all extractions (sample_extractor size_attrs) sample_world = Ok x1 w1
    /\ base_container_rule "merlin-inference" x1 w1
       = Ok (set_key "base_container" (VStr s) x1) w1.
Proof.
  pose (o := run_all extractions (sample_extractor size_attrs) sample_world).
  assert (E : o = Ok (object_of o (sample_extractor ∅)) (world_of o))
    by (vm_compute; reflexivity).
  destruct (base_container_rule_never_fails "merlin-inference"
              (sample_extractor size_attrs) sample_world _ _ E) as [s Hs].
  exists (object_of o (sample_extractor ∅)), (world_of o), s.
  split; [exact E | exact Hs].
Defined.
